(** * pynescript: parse orchestration and AST dump

    A shallow embedding of [pynescript/ast/helpers.py] (the AST dump
    serializer) and [pynescript/ast/parser/helpers.py] (input
    normalisation, directive preprocessing, the recursion-limit scope
    around the grammar engine and the debug diagnostic), with the
    properties the specification states about them.

    Python text is modelled by [string] (characters are code points below
    256), Python integers by [Z], Python lists by [list], and a raised
    exception by the [Raise] case of [result]. *)

From Stdlib Require Import ZArith Ascii String List Bool Lia DecimalString.
From stdpp Require Import base option list strings gmap.

Local Open Scope Z_scope.

(** ** Python built-ins used by the two modules *)

Module Py.

(** [len(s)] *)
Definition len (s : string) : Z := Z.of_nat (String.length s).

(** [s * n] on text: [n] copies, none when [n <= 0]. *)
Fixpoint repeat_nat (s : string) (n : nat) : string :=
  match n with
  | O => ""
  | S n' => s +:+ repeat_nat s n'
  end.

Definition str_mul (s : string) (n : Z) : string := repeat_nat s (Z.to_nat n).

(** [sep.join(parts)] *)
Fixpoint join (sep : string) (parts : list string) : string :=
  match parts with
  | [] => ""
  | [p] => p
  | p :: rest => p +:+ sep +:+ join sep rest
  end.

(** [bool(s)] for text: the empty text is falsy. *)
Definition truthy (s : string) : bool :=
  match s with
  | EmptyString => false
  | String _ _ => true
  end.

Definition tab : ascii := "009"%char.
Definition newline : ascii := "010"%char.
Definition carriage_return : ascii := "013"%char.
Definition nl : string := String newline "".

(** [s.split(sep)] for a one-character separator: never the empty list. *)
Fixpoint split (sep : ascii) (s : string) : list string :=
  match s with
  | EmptyString => [""]
  | String c rest =>
      if Ascii.eqb c sep then "" :: split sep rest
      else match split sep rest with
           | [] => [String c ""]
           | hd :: tl => String c hd :: tl
           end
  end.

(** [s.split(sep, 1)[0]]: the text before the first separator. *)
Fixpoint before_first (sep : ascii) (s : string) : string :=
  match s with
  | EmptyString => ""
  | String c rest =>
      if Ascii.eqb c sep then "" else String c (before_first sep rest)
  end.

(** [c.isspace()] for code points below 256. *)
Definition isspace (c : ascii) : bool :=
  let n := N.to_nat (N_of_ascii c) in
  ((9 <=? n)%nat && (n <=? 13)%nat) || ((28 <=? n)%nat && (n <=? 32)%nat)
  || (n =? 133)%nat || (n =? 160)%nat.

(** [s.lstrip()] *)
Fixpoint lstrip (s : string) : string :=
  match s with
  | EmptyString => ""
  | String c rest => if isspace c then lstrip rest else s
  end.

(** [s.startswith(p)] *)
Definition startswith (p s : string) : bool := String.prefix p s.

(** [s.expandtabs(tabsize)]: the column restarts after a line feed or a
    carriage return; a tab is dropped when [tabsize <= 0]. *)
Fixpoint expandtabs_from (tabsize col : Z) (s : string) : string :=
  match s with
  | EmptyString => ""
  | String c rest =>
      if Ascii.eqb c tab then
        if 0 <? tabsize then
          let incr := tabsize - col mod tabsize in
          str_mul " " incr +:+ expandtabs_from tabsize (col + incr) rest
        else expandtabs_from tabsize col rest
      else
        String c (expandtabs_from tabsize
                    (if Ascii.eqb c newline || Ascii.eqb c carriage_return
                     then 0 else col + 1) rest)
  end.

Definition expandtabs (tabsize : Z) (s : string) : string :=
  expandtabs_from tabsize 0 s.

(** [s[:stop]]: a negative [stop] counts from the end. *)
Fixpoint take (n : nat) (s : string) : string :=
  match n, s with
  | S n', String c rest => String c (take n' rest)
  | _, _ => ""
  end.

Definition slice_to (s : string) (stop : Z) : string :=
  if stop <? 0 then take (Z.to_nat (len s + stop)) s
  else take (Z.to_nat stop) s.

(** [l[i]] on a list: a negative index counts from the end, [None] is
    Python's [IndexError]. *)
Definition index {A} (l : list A) (i : Z) : option A :=
  if i <? 0 then
    if i + Z.of_nat (length l) <? 0 then None
    else l !! Z.to_nat (i + Z.of_nat (length l))
  else l !! Z.to_nat i.

(** [dict(pairs)]: keys keep the position of their first insertion, a
    later pair with the same key replaces the value. The dict is kept as
    the list of its items in iteration order. *)
Fixpoint dict_set {V} (d : list (string * V)) (k : string) (v : V)
  : list (string * V) :=
  match d with
  | [] => [(k, v)]
  | (k', v') :: d' =>
      if String.eqb k' k then (k', v) :: d'
      else (k', v') :: dict_set d' k v
  end.

Definition dict {V} (pairs : list (string * V)) : list (string * V) :=
  fold_left (fun d kv => dict_set d (fst kv) (snd kv)) pairs [].

End Py.

(** ** The generic AST node *)

(** A field value is a scalar, a node, or a sequence of values; a node has
    its class name and the pairs [node.iter_fields()] yields, in order. *)
#[warnings="-register-all"]
Inductive value : Type :=
| VNone
| VBool (b : bool)
| VInt (z : Z)
| VStr (s : string)
| VList (items : list value)
| VNode (n : node)
with node : Type :=
| Node (class_name : string) (fields : list (string * value)).

Definition class_name (n : node) : string :=
  match n with Node c _ => c end.

Definition iter_fields (n : node) : list (string * value) :=
  match n with Node _ fs => fs end.

(** Structural identity of two trees, as the specification words it: the
    same node types, the same fields in the same order, the same values. *)
Fixpoint same_value (a b : value) {struct a} : bool :=
  match a, b with
  | VNone, VNone => true
  | VBool x, VBool y => Bool.eqb x y
  | VInt x, VInt y => Z.eqb x y
  | VStr x, VStr y => String.eqb x y
  | VList xs, VList ys =>
      (fix same_items (xs ys : list value) {struct xs} : bool :=
         match xs, ys with
         | [], [] => true
         | x :: xs', y :: ys' => same_value x y && same_items xs' ys'
         | _, _ => false
         end) xs ys
  | VNode n, VNode m => same_tree n m
  | _, _ => false
  end
with same_tree (n m : node) {struct n} : bool :=
  match n, m with
  | Node c fs, Node d gs =>
      String.eqb c d &&
      (fix same_fields (fs gs : list (string * value)) {struct fs} : bool :=
         match fs, gs with
         | [], [] => true
         | (k, x) :: fs', (l, y) :: gs' =>
             String.eqb k l && same_value x y && same_fields fs' gs'
         | _, _ => false
         end) fs gs
  end.

(** ** [pynescript/ast/helpers.py] *)

Section Dump.

(** Python's [repr], used by [f"{value!r}"]; on a node it is the
    [__repr__] of [pynescript.ast.types.AST], which is not in these
    modules. *)
Variable repr : value -> string.

(** [_dump_value_impl] and [_dump_impl]. The items of
    [dict(iter_fields(node))] are rendered while the fields are
    traversed, so that the recursion is structural;
    [_dump_impl_unfold] below gives the equation in the order of the
    source. *)
Fixpoint _dump_value_impl (v : value) (indent : string) (depth : Z)
  {struct v} : string :=
  match v with
  | VNode n => _dump_impl n indent depth
  | VList items =>
      match items with
      | [] => repr v
      | _ :: _ =>
          Py.join Py.nl
            ("[" ::
             map (fun subvalue =>
                    Py.str_mul indent (depth + 1) +:+
                    _dump_value_impl subvalue indent (depth + 1) +:+ ",")
                 items ++
             [Py.str_mul indent depth +:+ "]"])
      end
  | _ => repr v
  end
with _dump_impl (n : node) (indent : string) (depth : Z)
  {struct n} : string :=
  match n with
  | Node cls fields =>
      let class_params :=
        Py.dict
          (map (fun nv =>
                  (fst nv,
                   (repr (snd nv),
                    _dump_value_impl (snd nv) indent (depth + 1))))
               fields) in
      if Py.truthy indent && (0 <? Z.of_nat (length class_params)) then
        Py.join Py.nl
          ((cls +:+ "(") ::
           map (fun p =>
                  Py.str_mul indent (depth + 1) +:+ fst p +:+ "=" +:+
                  snd (snd p) +:+ ",")
               class_params ++
           [Py.str_mul indent depth +:+ ")"])
      else
        cls +:+ "(" +:+
        Py.join ", " (map (fun p => fst p +:+ "=" +:+ fst (snd p))
                          class_params) +:+
        ")"
  end.

(** The [indent] argument of [dump]: absent, an [int] or a [str]. *)
Inductive indent_arg : Type :=
| IndentInt (z : Z)
| IndentStr (s : string).

Definition dump (n : node) (indent : option indent_arg) : string :=
  let indent := match indent with None => IndentInt 0 | Some i => i end in
  let indent :=
    match indent with
    | IndentInt z => Py.str_mul " " z
    | IndentStr s => s
    end in
  _dump_impl n indent 0.

(** The two renderings of a node, as [_dump_impl] writes them. *)
Definition compact_form (n : node) : string :=
  class_name n +:+ "(" +:+
  Py.join ", "
    (map (fun nv => fst nv +:+ "=" +:+ repr (snd nv))
         (Py.dict (iter_fields n))) +:+
  ")".

Definition multiline_form (n : node) (indent : string) (depth : Z) : string :=
  Py.join Py.nl
    ((class_name n +:+ "(") ::
     map (fun nv =>
            Py.str_mul indent (depth + 1) +:+ fst nv +:+ "=" +:+
            _dump_value_impl (snd nv) indent (depth + 1) +:+ ",")
         (Py.dict (iter_fields n)) ++
     [Py.str_mul indent depth +:+ ")"]).

End Dump.

(** ** Exceptions, the ambient state and the monad of the parser

    A call either returns a value or raises; it reads and writes the
    process-wide recursion ceiling ([sys.getrecursionlimit()]) and appends
    to standard output. *)

(** What a [pyparsing.ParseException] carries for these modules: its
    1-based [lineno] and [col] and its text [str(err)]. *)
Record parse_failure : Type := ParseFailure {
  lineno : Z;
  col : Z;
  err_text : string
}.

Inductive exn : Type :=
| ParseException (err : parse_failure)
| TypeError (msg : string)
| IndexError
| ValueError
| OtherError (name : string).

Inductive result (A : Type) : Type :=
| Return (a : A)
| Raise (e : exn).

Arguments Return {A} a.
Arguments Raise {A} e.

Record world : Type := World {
  ceiling : Z;
  stdout : list string
}.

Definition M (A : Type) : Type := world -> result A * world.

Definition ret {A} (a : A) : M A := fun w => (Return a, w).

Definition raise {A} (e : exn) : M A := fun w => (Raise e, w).

Definition bind {A B} (m : M A) (k : A -> M B) : M B :=
  fun w =>
    match m w with
    | (Return a, w') => k a w'
    | (Raise e, w') => (Raise e, w')
    end.

Notation "'let*' x := m 'in' k" := (bind m (fun x => k))
  (at level 10, x name, m at level 100, k at level 200).
Notation "'do' m 'then' k" := (bind m (fun _ => k))
  (at level 10, m at level 100, k at level 200).

(** Lifting of a pure computation that may raise. *)
Definition lift {A} (r : result A) : M A := fun w => (r, w).

(** [print(line)] *)
Definition print (line : string) : M unit :=
  fun w => (Return tt, World (ceiling w) (stdout w ++ [line])).

(** [try: body except ParseException as err: handler]: any other exception
    passes through. *)
Definition try_except_ParseException {A} (body : M A)
  (handler : parse_failure -> M A) : M A :=
  fun w =>
    match body w with
    | (Raise (ParseException err), w') => handler err w'
    | other => other
    end.

(** Modelled from the spec: the context manager [recursion_limit] of
    pynescript.ast.parser.utils is not among the sources. "Given a positive
    integer ceiling, raises the ambient call-stack recursion limit for the
    dynamic extent of a single grammar-parse invocation and unconditionally
    restores the previous limit afterward, including when the invocation
    raises." A ceiling below 1 is refused by the interpreter
    ([sys.setrecursionlimit] raises [ValueError]) and the limit stays as it
    was. *)
Definition recursion_limit_context {A} (limit : Z) (body : M A) : M A :=
  fun w =>
    let previous := ceiling w in
    if limit <? 1 then (Raise ValueError, w)
    else
      match body (World limit (stdout w)) with
      | (r, w') => (r, World previous (stdout w'))
      end.

(** ** The collaborators of the parser

    The grammar ([pynescript.ast.parser.grammars]), [calc_width]
    ([pynescript.ast.parser.utils]) and [pyparsing.testing] are outside
    these modules and are taken as parameters. *)
Class Collaborators : Type := {
  (** [version_comment.search_string(source)]: the named results of every
      match, in the order of the text. *)
  version_search : string -> list (gmap string value);
  (** [comment_suppressed.transform_string(source)] *)
  comment_transform : string -> string;
  (** [script.parse_string(text, parse_all)], run under the ambient
      recursion ceiling given first; it has no other effect. *)
  script_parse : Z -> string -> bool -> result (list node);
  (** [calc_width(text, tab_width)] *)
  calc_width : string -> Z -> Z;
  (** [pyparsing.testing.with_line_numbers(text)] *)
  with_line_numbers : string -> string
}.

(** The file system and the codecs behind [Path.exists], [open] and
    [TextIOWrapper]. *)
Class FileSystem : Type := {
  (** [Path(p).exists()]: it answers, or raises the [OSError] of the
      system for a name it refuses (one that is too long, say). *)
  path_exists : string -> result bool;
  (** [open(p, encoding=e)] raises or gives a text stream, whose [read()]
      raises or gives the decoded text. *)
  open_text : string -> string -> result (result string);
  (** decoding of bytes with the named encoding *)
  decode : string -> list Byte.byte -> result string
}.

(** [ParseResults.get(name)]: [None] when the name is absent. *)
Definition results_get (r : gmap string value) (name : string) : value :=
  match r !! name with
  | Some v => v
  | None => VNone
  end.

Definition is_not_None (v : value) : bool :=
  match v with
  | VNone => false
  | _ => true
  end.

(** [node.name = v]: writes the node's field of that name. *)
Definition setattr (n : node) (name : string) (v : value) : node :=
  match n with
  | Node cls fs => Node cls (Py.dict_set fs name v)
  end.

(** [node.name], [None] for a field the node does not have. *)
Fixpoint field_lookup (fs : list (string * value)) (name : string)
  : option value :=
  match fs with
  | [] => None
  | (k, v) :: fs' => if String.eqb k name then Some v else field_lookup fs' name
  end.

Definition getattr (n : node) (name : string) : value :=
  match field_lookup (iter_fields n) name with
  | Some v => v
  | None => VNone
  end.

(** Modelled from the spec: the class [Script] of pynescript.ast.types is
    not among the sources. "Script Node: holds an optional version tag and
    an ordered sequence of top-level statement nodes"; [ast.Script(body)]
    gives the node with these statements and no version. *)
Definition Script (body : list value) : node :=
  Node "Script" [("body", VList body); ("version", VNone)].

(** The keyword arguments shared by the entry points. *)
Record options : Type := Options {
  parse_all : bool;
  expand_tabs : bool;
  debug : bool;
  tab_width : Z;
  recursion_limit : Z
}.

Definition default_options : options :=
  {| parse_all := true; expand_tabs := true; debug := false;
     tab_width := 4; recursion_limit := 1000 |}.

(** ** [pynescript/ast/parser/helpers.py] *)

Section Parser.

Context {collaborators : Collaborators}.

(** What the [if debug:] block before the parse leaves for the handler. *)
Record debug_info : Type := DebugInfo {
  source_lines : list string;
  source_lines_formatted_for_debug : list string;
  actual_source_start_line_index : Z;
  actual_source_start_column_index : Z
}.

(** The loop [for i in range(len(source_formatted_for_debug))] over the
    annotated lines: [count] iterations are left from index [i]; the index
    runs over the length of the text, and [lines[i]] raises [IndexError]
    past the last line. *)
Fixpoint find_source_start (lines : list string) (i count : nat)
  : result (Z * Z) :=
  match count with
  | O => Return (0, 0)
  | S count' =>
      match lines !! i with
      | None => Raise IndexError
      | Some line =>
          if Py.startswith "1:" (Py.lstrip line) then
            Return (Z.of_nat i, Py.len (Py.before_first ":" line) + 1)
          else find_source_start lines (S i) count'
      end
  end.

Definition debug_prepare (source : string) (tab_width : Z) : result debug_info :=
  let source_expanded := Py.expandtabs tab_width source in
  let source_formatted_for_debug := with_line_numbers source_expanded in
  let source_lines := Py.split Py.newline source in
  let source_lines_formatted_for_debug :=
    Py.split Py.newline source_formatted_for_debug in
  match find_source_start source_lines_formatted_for_debug 0
          (String.length source_formatted_for_debug) with
  | Return (line_index, column_index) =>
      Return (DebugInfo source_lines source_lines_formatted_for_debug
                line_index column_index)
  | Raise e => Raise e
  end.

(** The body of [for i, formatted_line in enumerate(...)] in the handler,
    from index [i] on. *)
Fixpoint print_annotated (d : debug_info) (err : parse_failure)
  (tab_width : Z) (lines : list string) (i : Z) : M unit :=
  match lines with
  | [] => ret tt
  | formatted_line :: rest =>
      do print formatted_line then
      let lineno_here := i - actual_source_start_line_index d + 1 in
      do (if negb (lineno err =? lineno_here) then ret tt
          else
            match Py.index (source_lines d) (lineno err - 1) with
            | None => raise IndexError
            | Some source_line =>
                let source_line_until_col :=
                  Py.slice_to source_line (col err - 1) in
                let indent_until_col :=
                  calc_width source_line_until_col tab_width in
                let arrow_indent :=
                  Py.str_mul " "
                    (actual_source_start_column_index d + indent_until_col) in
                do print (arrow_indent +:+ "^") then
                print (arrow_indent +:+ err_text err)
            end) then
      print_annotated d err tab_width rest (i + 1)
  end.

(** The [except ParseException as err:] handler. *)
Definition on_parse_exception (dbg : option debug_info) (tab_width : Z)
  (err : parse_failure) : M (list node) :=
  do (match dbg with
      | Some d =>
          do print "" then
          do print "Error while parsing source:" then
          print_annotated d err tab_width
            (source_lines_formatted_for_debug d) 0
      | None => ret tt
      end) then
  raise (ParseException err).

(** The text the directive search and the comment suppression work on. *)
Definition prepared_source (source : string) (o : options) : string :=
  if expand_tabs o then Py.expandtabs (tab_width o) source else source.

(** [script_version] after the directive search. *)
Definition version_of_source (source : string) : value :=
  match version_search source with
  | [] => VNone
  | version_result :: _ => results_get version_result "version"
  end.

Definition parse_string (source : string) (o : options) : M node :=
  let source := prepared_source source o in
  let script_version := version_of_source source in
  let source_without_comment := comment_transform source in
  let* dbg :=
    (if debug o then
       let* d := lift (debug_prepare source (tab_width o)) in ret (Some d)
     else ret None) in
  let* parse_results :=
    try_except_ParseException
      (recursion_limit_context (recursion_limit o)
         (fun w =>
            (script_parse (ceiling w) source_without_comment (parse_all o), w)))
      (on_parse_exception dbg (tab_width o)) in
  let script_node :=
    match parse_results with
    | first :: _ => first
    | [] => Script []
    end in
  let script_node :=
    if is_not_None script_version
    then setattr script_node "version" script_version
    else script_node in
  ret script_node.

(** What [parse_file] may be given. *)
Inductive pyobj : Type :=
| PStr (s : string)
| PPath (p : string)
| PPathLike (type_name : string) (p : string)
| PBytes (b : list Byte.byte)
| PRawIO (b : list Byte.byte)
| PBufferedIO (type_name : string) (b : list Byte.byte)
| PTextIO (read : result string)
| PObject (type_name : string).

(** [isinstance(f, ...)] along the class hierarchy of [io], [os] and
    [pathlib]: a [pathlib.Path] is the only path-like that is a [Path];
    [BytesIO] and the buffered readers are [BufferedIOBase], not
    [RawIOBase]. *)
Definition isinstance_str (f : pyobj) : bool :=
  match f with PStr _ => true | _ => false end.

Definition isinstance_Path (f : pyobj) : bool :=
  match f with PPath _ => true | _ => false end.

Definition isinstance_bytes (f : pyobj) : bool :=
  match f with PBytes _ => true | _ => false end.

Definition isinstance_RawIOBase (f : pyobj) : bool :=
  match f with PRawIO _ => true | _ => false end.

Definition isinstance_TextIOBase (f : pyobj) : bool :=
  match f with PTextIO _ => true | _ => false end.

(** [type(f)] as [f"{type(f)}"] prints it. *)
Definition type_repr (f : pyobj) : string :=
  "<class '" +:+
  match f with
  | PStr _ => "str"
  | PPath _ => "pathlib.PosixPath"
  | PPathLike t _ => t
  | PBytes _ => "bytes"
  | PRawIO _ => "_io.FileIO"
  | PBufferedIO t _ => t
  | PTextIO _ => "_io.TextIOWrapper"
  | PObject t => t
  end +:+ "'>".

Context {file_system : FileSystem}.

(** [Path(f)], [open(f, encoding=encoding)], [BytesIO(f)],
    [TextIOWrapper(f, encoding=encoding)] and [f.read()], each on the kind
    of object it is applied to. *)
Definition Path (f : pyobj) : pyobj :=
  match f with PStr s => PPath s | _ => f end.

Definition open (f : pyobj) (encoding : string) : M pyobj :=
  match f with
  | PPath p => let* stream := lift (open_text p encoding) in ret (PTextIO stream)
  | _ => ret f
  end.

Definition BytesIO (f : pyobj) : pyobj :=
  match f with PBytes b => PBufferedIO "_io.BytesIO" b | _ => f end.

Definition TextIOWrapper (f : pyobj) (encoding : string) : pyobj :=
  match f with PRawIO b => PTextIO (decode encoding b) | _ => f end.

Definition read (f : pyobj) : M string :=
  match f with
  | PTextIO text => lift text
  | _ => raise (OtherError "AttributeError")
  end.

Definition parse_file (f : pyobj) (encoding : option string) (o : options)
  : M node :=
  let encoding := match encoding with None => "utf-8" | Some e => e end in
  let f := if isinstance_str f then Path f else f in
  let* f := if isinstance_Path f then open f encoding else ret f in
  let f := if isinstance_bytes f then BytesIO f else f in
  let f := if isinstance_RawIOBase f then TextIOWrapper f encoding else f in
  let* source :=
    (if isinstance_TextIOBase f
     then let* text := read f in ret (Some text)
     else ret None) in
  match source with
  | None => raise (TypeError ("Unsupported argument type: " +:+ type_repr f))
  | Some source => parse_string source o
  end.

(** [parse]: [isinstance(source, str) and not Path(source).exists()]
    selects [parse_string]; the existence test is made for a [str] only,
    and what it raises leaves [parse]. *)
Definition parse (source : pyobj) (encoding : option string) (o : options)
  : M node :=
  match source with
  | PStr text =>
      let* exists_ := lift (path_exists text) in
      if negb exists_ then parse_string text o
      else parse_file source encoding o
  | _ => parse_file source encoding o
  end.

End Parser.

(** ** Auxiliary definitions for the statements *)

(** The text [dump] passes to [_dump_impl] for an [indent] argument. *)
Definition indent_text (indent : option indent_arg) : string :=
  match indent with
  | None => ""
  | Some (IndentInt z) => Py.str_mul " " z
  | Some (IndentStr s) => s
  end.

(** The annotated text is empty or has a line numbered 1. *)
Definition numbered_from_one (annotated : string) : bool :=
  String.eqb annotated "" ||
  existsb (fun line => Py.startswith "1:" (Py.lstrip line))
          (Py.split Py.newline annotated).

(** The index of the annotated line under which the caret goes: the [i]
    with [i - actual_source_start_line_index + 1 = err.lineno]. *)
Definition caret_row (d : debug_info) (err : parse_failure) : Z :=
  lineno err - 1 + actual_source_start_line_index d.

(** The two lines printed under the failing line. *)
Definition caret_lines `{Collaborators} (d : debug_info) (err : parse_failure)
  (tab_width : Z) (source_line : string) : list string :=
  let arrow_indent :=
    Py.str_mul " "
      (actual_source_start_column_index d +
       calc_width (Py.slice_to source_line (col err - 1)) tab_width) in
  [arrow_indent +:+ "^"; arrow_indent +:+ err_text err].

(** The node [parse_string] returns for the results of the grammar and the
    version found by the directive search (the lines after the [try]). *)
Definition returned_node (parse_results : list node) (script_version : value)
  : node :=
  let script_node :=
    match parse_results with
    | first :: _ => first
    | [] => Script []
    end in
  if is_not_None script_version
  then setattr script_node "version" script_version
  else script_node.

(** Whether the debug block before the parse ran and what it left. *)
Definition debug_state `{Collaborators} (source : string) (o : options)
  (dbg : option debug_info) : Prop :=
  match dbg with
  | Some d =>
      debug o = true /\
      debug_prepare (prepared_source source o) (tab_width o) = Return d
  | None => debug o = false
  end.

(** A computation that leaves the ambient recursion ceiling as it found
    it, whether it returns or raises. *)
Definition keeps_ceiling {A} (m : M A) : Prop :=
  forall w, ceiling (snd (m w)) = ceiling w.

(** Induction over values and nodes together. *)
Section ValueInduction.

Variable P : value -> Prop.
Variable Q : node -> Prop.
Hypothesis HNone : P VNone.
Hypothesis HBool : forall b, P (VBool b).
Hypothesis HInt : forall z, P (VInt z).
Hypothesis HStr : forall s, P (VStr s).
Hypothesis HList : forall items, Forall P items -> P (VList items).
Hypothesis HNode : forall n, Q n -> P (VNode n).
Hypothesis HFields :
  forall cls fields, Forall (fun nv => P (snd nv)) fields -> Q (Node cls fields).

Fixpoint value_node_ind (v : value) : P v :=
  match v with
  | VNone => HNone
  | VBool b => HBool b
  | VInt z => HInt z
  | VStr s => HStr s
  | VList items =>
      HList items
        ((fix all (l : list value) : Forall P l :=
            match l with
            | [] => Forall_nil_2 P
            | x :: l' => Forall_cons_2 P x l' (value_node_ind x) (all l')
            end) items)
  | VNode n => HNode n (node_value_ind n)
  end
with node_value_ind (n : node) : Q n :=
  match n with
  | Node cls fields =>
      HFields cls fields
        ((fix all (l : list (string * value))
            : Forall (fun nv => P (snd nv)) l :=
            match l with
            | [] => Forall_nil_2 _
            | nv :: l' =>
                Forall_cons_2 (fun nv => P (snd nv)) nv l'
                  (value_node_ind (snd nv)) (all l')
            end) fields)
  end.

End ValueInduction.

(** ** Concrete collaborators, for running the definitions *)

Module Demo.

(** A rendering in the style of [repr] for the values of the examples. *)
Fixpoint repr (v : value) : string :=
  match v with
  | VNone => "None"
  | VBool true => "True"
  | VBool false => "False"
  | VInt z => DecimalString.NilZero.string_of_int (Z.to_int z)
  | VStr s => "'" +:+ s +:+ "'"
  | VList items => "[" +:+ Py.join ", " (map repr items) +:+ "]"
  | VNode (Node cls fields) =>
      cls +:+ "(" +:+
      Py.join ", " (map (fun nv => fst nv +:+ "=" +:+ repr (snd nv)) fields) +:+
      ")"
  end.

(** Every [//@version=] followed by one character is a directive. *)
Fixpoint search_version (s : string) : list (gmap string value) :=
  match s with
  | EmptyString => []
  | String _ rest =>
      (if String.prefix "//@version=" s
       then [{[ "version" := VStr (String.substring 11 1 s) ]}]
       else []) ++ search_version rest
  end.

(** A grammar that accepts any text not starting with [?], wraps it in one
    statement, and needs a ceiling of at least 50. *)
Definition parse_script (limit : Z) (text : string) (all : bool)
  : result (list node) :=
  if limit <? 50 then Raise (OtherError "RecursionError")
  else if String.eqb text "" then Return []
  else if String.prefix "?" text
       then Raise (ParseException (ParseFailure 1 1 "Expected statement"))
       else Return [Script [VStr text]].

Fixpoint number_lines (lines : list string) (i : nat) : list string :=
  match lines with
  | [] => []
  | line :: rest =>
      (DecimalString.NilZero.string_of_uint (Nat.to_uint i) +:+ ":" +:+ line +:+ "|")
        :: number_lines rest (S i)
  end.

Definition line_numbers (s : string) : string :=
  if String.eqb s "" then ""
  else Py.join Py.nl ("  1234567890" :: number_lines (Py.split Py.newline s) 1)
       +:+ Py.nl.

#[global] Instance collaborators : Collaborators := {|
  version_search := search_version;
  comment_transform := fun s => s;
  script_parse := parse_script;
  calc_width := fun s w => Py.len (Py.expandtabs w s);
  with_line_numbers := line_numbers
|}.

(** A name with a component of more than 255 characters is refused. *)
Definition name_too_long (p : string) : bool :=
  existsb (fun part => (255 <? String.length part)%nat) (Py.split "/" p).

#[global] Instance file_system : FileSystem := {|
  path_exists := fun p =>
    if name_too_long p then Raise (OtherError "OSError")
    else Return (String.eqb p "script.pine");
  open_text := fun p _ =>
    if String.eqb p "script.pine"
    then Return (Return "//@version=5")
    else Raise (OtherError "FileNotFoundError");
  decode := fun _ b => Return (String.string_of_list_byte b)
|}.

Definition world0 : world := World 1000 [].

(** A source text of one long line. *)
Definition long_source : string :=
  "plot(" +:+ Py.repeat_nat "x" 260 +:+ ")".

Definition call : node :=
  Node "Call" [("func", VStr "foo"); ("args", VList [VInt 1])].

(** A source the grammar above refuses at line 1, column 1, and what the
    debug block computes for it. *)
Definition failing_source : string := "?x" +:+ Py.nl +:+ "y".

Definition failure : parse_failure := ParseFailure 1 1 "Expected statement".

Definition failing_debug_info : debug_info :=
  DebugInfo ["?x"; "y"] ["  1234567890"; "1:?x|"; "2:y|"; ""] 1 2.

Definition debug_options : options :=
  {| parse_all := true; expand_tabs := true; debug := true;
     tab_width := 4; recursion_limit := 2000 |}.

End Demo.

(** ** Further notions for the statements *)

(** The number of line feeds of a text, and whether it has none. *)
Fixpoint count_newlines (s : string) : nat :=
  match s with
  | EmptyString => O
  | String c rest =>
      ((if Ascii.eqb c Py.newline then 1 else 0) + count_newlines rest)%nat
  end.

Definition one_line (s : string) : bool := Nat.eqb (count_newlines s) 0.

(** Whether a text has a tab. *)
Fixpoint has_tab (s : string) : bool :=
  match s with
  | EmptyString => false
  | String c rest => Ascii.eqb c Py.tab || has_tab rest
  end.

(** The rows a value takes in the multi-line dump: one for a scalar, an
    empty sequence or a node without fields; an opening and a closing row
    around the rows of the items or fields otherwise. *)
Fixpoint rows_of_value (v : value) : nat :=
  match v with
  | VNode n => rows_of_node n
  | VList items =>
      match items with
      | [] => 1
      | _ :: _ => 2 + list_sum (map rows_of_value items)
      end
  | _ => 1
  end
with rows_of_node (n : node) : nat :=
  match n with
  | Node _ fields =>
      match fields with
      | [] => 1
      | _ :: _ => 2 + list_sum (map (fun nv => rows_of_value (snd nv)) fields)
      end
  end.

(** A tree whose dump has no line feed of its own: class and field names
    are on one line, the field names of a node are pairwise distinct, and
    [repr] of every scalar and empty sequence is on one line. *)
Fixpoint tidy_value (repr : value -> string) (v : value) : bool :=
  match v with
  | VNode n => tidy_node repr n
  | VList items =>
      match items with
      | [] => one_line (repr v)
      | _ :: _ => forallb (tidy_value repr) items
      end
  | _ => one_line (repr v)
  end
with tidy_node (repr : value -> string) (n : node) : bool :=
  match n with
  | Node cls fields =>
      one_line cls &&
      bool_decide (NoDup (map fst fields)) &&
      forallb (fun nv => one_line (fst nv) && tidy_value repr (snd nv)) fields
  end.

(** A tree in which the field names of every node are pairwise distinct,
    as in an ordered mapping. *)
Fixpoint distinct_names_value (v : value) : bool :=
  match v with
  | VNode n => distinct_names_node n
  | VList items => forallb distinct_names_value items
  | _ => true
  end
with distinct_names_node (n : node) : bool :=
  match n with
  | Node _ fields =>
      bool_decide (NoDup (map fst fields)) &&
      forallb (fun nv => distinct_names_value (snd nv)) fields
  end.

(** The dump as the specification words it (4.6), with the fields of every
    node in the order in which the node declares them: the compact form
    [TypeName(field=repr, ...)] without indent or without fields; else one
    field per row, every nested node and non-empty sequence rendered in
    the same way one level deeper, scalars and empty sequences by
    [repr]. Nothing is looked up, sorted or collected into a dict here. *)
Fixpoint dump_value_in_declared_order (repr : value -> string) (v : value)
  (indent : string) (depth : Z) {struct v} : string :=
  match v with
  | VNode n => dump_node_in_declared_order repr n indent depth
  | VList items =>
      match items with
      | [] => repr v
      | _ :: _ =>
          Py.join Py.nl
            ("[" ::
             map (fun item =>
                    Py.str_mul indent (depth + 1) +:+
                    dump_value_in_declared_order repr item indent (depth + 1)
                    +:+ ",")
                 items ++
             [Py.str_mul indent depth +:+ "]"])
      end
  | _ => repr v
  end
with dump_node_in_declared_order (repr : value -> string) (n : node)
  (indent : string) (depth : Z) {struct n} : string :=
  match n with
  | Node cls fields =>
      if Py.truthy indent && (0 <? Z.of_nat (length fields)) then
        Py.join Py.nl
          ((cls +:+ "(") ::
           map (fun nv =>
                  Py.str_mul indent (depth + 1) +:+ fst nv +:+ "=" +:+
                  dump_value_in_declared_order repr (snd nv) indent (depth + 1)
                  +:+ ",")
               fields ++
           [Py.str_mul indent depth +:+ ")"])
      else
        cls +:+ "(" +:+
        Py.join ", " (map (fun nv => fst nv +:+ "=" +:+ repr (snd nv)) fields)
        +:+ ")"
  end.

(** The names of a list, each once, in the order of their first
    occurrence. *)
Fixpoint first_occurrences (names : list string) : list string :=
  match names with
  | [] => []
  | name :: rest =>
      name :: List.filter (fun other => negb (String.eqb other name))
                (first_occurrences rest)
  end.

(** The fields a dump shows for the pairs a node yields: every name once,
    in the order of its first occurrence, with the value of its last
    occurrence. *)
Definition shown_fields (fields : list (string * value))
  : list (string * value) :=
  map (fun name =>
         (name,
          match field_lookup (reverse fields) name with
          | Some v => v
          | None => VNone
          end))
      (first_occurrences (map fst fields)).

(** The options with [debug] set as given. *)
Definition with_debug (b : bool) (o : options) : options :=
  {| parse_all := parse_all o; expand_tabs := expand_tabs o; debug := b;
     tab_width := tab_width o; recursion_limit := recursion_limit o |}.

Definition is_ParseException (e : exn) : bool :=
  match e with
  | ParseException _ => true
  | _ => false
  end.

(** The kinds of argument [parse_file] resolves to a text: a [str], a
    [pathlib.Path], a raw binary stream and a text stream. *)
Definition resolved_kind (f : pyobj) : bool :=
  match f with
  | PStr _ | PPath _ | PRawIO _ | PTextIO _ => true
  | _ => false
  end.

(** Whether a line of the annotated text is the line numbered 1. *)
Definition numbered_one (line : string) : bool :=
  Py.startswith "1:" (Py.lstrip line).

(** Further collaborators for running the definitions. *)
Module Demo2.

(** An annotation without line numbers. *)
Definition unnumbered : Collaborators := {|
  version_search := Demo.search_version;
  comment_transform := fun s => s;
  script_parse := Demo.parse_script;
  calc_width := fun s w => Py.len (Py.expandtabs w s);
  with_line_numbers := fun s => s
|}.

(** A grammar that reports every failure on line 2. *)
Definition line_two : Collaborators := {|
  version_search := Demo.search_version;
  comment_transform := fun s => s;
  script_parse := fun limit text all =>
    if String.prefix "?" text
    then Raise (ParseException (ParseFailure 2 1 "Expected statement"))
    else Demo.parse_script limit text all;
  calc_width := fun s w => Py.len (Py.expandtabs w s);
  with_line_numbers := Demo.line_numbers
|}.

(** A grammar that gives its root node a version and a title. *)
Definition versioned : Collaborators := {|
  version_search := Demo.search_version;
  comment_transform := fun s => s;
  script_parse := fun limit text all =>
    Return [Node "Script" [("title", VStr "t"); ("version", VInt 4);
                           ("body", VList [VStr text])]];
  calc_width := fun s w => Py.len (Py.expandtabs w s);
  with_line_numbers := Demo.line_numbers
|}.

Definition nested : node :=
  Node "Script"
    [("body",
      VList [VNode (Node "Expr"
                      [("value",
                        VNode (Node "Call"
                                 [("func", VStr "foo"); ("args", VList [])]))]);
             VNode (Node "Pass" [])]);
     ("version", VStr "v1")].

Definition repeated : node :=
  Node "X" [("a", VInt 1); ("b", VInt 2); ("a", VInt 3)].

End Demo2.

(** * Properties *)

(** ** [dict(...)] *)

Section DictFacts.

Context {V W : Type}.

Lemma dict_set_fresh (d : list (string * V)) (k : string) (v : V) :
  k ∉ map fst d -> Py.dict_set d k v = d ++ [(k, v)].
Proof.
  induction d as [|[k' v'] d IH]; intros Hk; simpl in *.
  - reflexivity.
  - destruct (String.eqb_spec k' k) as [->|Hne].
    + exfalso. apply Hk. left.
    + f_equal. apply IH. intros Hin. apply Hk. now right.
Qed.

Lemma dict_fold_distinct (pairs acc : list (string * V)) :
  NoDup (map fst (acc ++ pairs)) ->
  fold_left (fun d kv => Py.dict_set d (fst kv) (snd kv)) pairs acc
  = acc ++ pairs.
Proof.
  revert acc. induction pairs as [|[k v] pairs IH]; intros acc Hnd; simpl.
  - now rewrite app_nil_r.
  - assert (Hfresh : k ∉ map fst acc).
    { rewrite map_app in Hnd. simpl in Hnd.
      apply NoDup_app in Hnd as (_ & Hdisj & _).
      intros Hin. apply (Hdisj k Hin). left. }
    rewrite (dict_set_fresh acc k v Hfresh).
    rewrite IH.
    + now rewrite <- app_assoc.
    + now rewrite <- app_assoc.
Qed.

(** With pairwise distinct keys, [dict] keeps the pairs as they come. *)
Lemma dict_distinct (pairs : list (string * V)) :
  NoDup (map fst pairs) -> Py.dict pairs = pairs.
Proof. intros Hnd. unfold Py.dict. now rewrite dict_fold_distinct. Qed.

Lemma dict_set_map (f : V -> W) (d : list (string * V)) (k : string) (v : V) :
  Py.dict_set (map (fun kv => (fst kv, f (snd kv))) d) k (f v)
  = map (fun kv => (fst kv, f (snd kv))) (Py.dict_set d k v).
Proof.
  induction d as [|[k' v'] d IH]; simpl.
  - reflexivity.
  - destruct (String.eqb k' k); simpl.
    + reflexivity.
    + now rewrite IH.
Qed.

Lemma dict_fold_map (f : V -> W) (pairs acc : list (string * V)) :
  fold_left (fun d kv => Py.dict_set d (fst kv) (snd kv))
    (map (fun kv => (fst kv, f (snd kv))) pairs)
    (map (fun kv => (fst kv, f (snd kv))) acc)
  = map (fun kv => (fst kv, f (snd kv)))
      (fold_left (fun d kv => Py.dict_set d (fst kv) (snd kv)) pairs acc).
Proof.
  revert acc. induction pairs as [|[k v] pairs IH]; intros acc; simpl.
  - reflexivity.
  - rewrite dict_set_map. apply IH.
Qed.

(** Rendering the values before or after [dict] gives the same items. *)
Lemma dict_map (f : V -> W) (pairs : list (string * V)) :
  Py.dict (map (fun kv => (fst kv, f (snd kv))) pairs)
  = map (fun kv => (fst kv, f (snd kv))) (Py.dict pairs).
Proof. unfold Py.dict. apply (dict_fold_map f pairs []). Qed.

Lemma dict_set_not_nil (d : list (string * V)) (k : string) (v : V) :
  Py.dict_set d k v <> [].
Proof. destruct d as [|[k' v'] d]; simpl; [|destruct (String.eqb k' k)]; discriminate. Qed.

Lemma dict_fold_not_nil (pairs acc : list (string * V)) :
  acc <> [] ->
  fold_left (fun d kv => Py.dict_set d (fst kv) (snd kv)) pairs acc <> [].
Proof.
  revert acc. induction pairs as [|[k v] pairs IH]; intros acc Hacc; simpl.
  - exact Hacc.
  - apply IH, dict_set_not_nil.
Qed.

(** [len(dict(pairs)) > 0] exactly when there is a pair. *)
Lemma dict_length_pos (pairs : list (string * V)) :
  (0 <? Z.of_nat (length (Py.dict pairs))) = negb (bool_decide (pairs = [])).
Proof.
  destruct pairs as [|[k v] pairs].
  - reflexivity.
  - rewrite bool_decide_eq_false_2 by discriminate. simpl.
    unfold Py.dict. simpl.
    pose proof (dict_fold_not_nil pairs [(k, v)]) as Hne.
    destruct (fold_left _ pairs [(k, v)]) as [|x l].
    + exfalso. now apply Hne.
    + reflexivity.
Qed.

End DictFacts.

(** ** Structural identity *)

Lemma value_node_mutind (P : value -> Prop) (Q : node -> Prop) :
  P VNone ->
  (forall b, P (VBool b)) ->
  (forall z, P (VInt z)) ->
  (forall s, P (VStr s)) ->
  (forall items, Forall P items -> P (VList items)) ->
  (forall n, Q n -> P (VNode n)) ->
  (forall cls fields,
      Forall (fun nv => P (snd nv)) fields -> Q (Node cls fields)) ->
  (forall v, P v) /\ (forall n, Q n).
Proof.
  intros; split;
    [apply (value_node_ind P Q) | apply (node_value_ind P Q)]; assumption.
Qed.

(** Trees that are structurally identical are the same tree. *)
Lemma same_value_tree_eq :
  (forall a b, same_value a b = true -> a = b) /\
  (forall n m, same_tree n m = true -> n = m).
Proof.
  apply value_node_mutind.
  - intros [] H; simpl in H; congruence.
  - intros x [] H; simpl in H; try discriminate.
    apply Bool.eqb_prop in H. congruence.
  - intros x [] H; simpl in H; try discriminate.
    apply Z.eqb_eq in H. congruence.
  - intros x [] H; simpl in H; try discriminate.
    apply String.eqb_eq in H. congruence.
  - intros items IH [] H; simpl in H; try discriminate.
    f_equal. revert items0 H.
    induction IH as [|x xs Hx _ IHxs]; intros [|y ys] H;
      try discriminate; [reflexivity|].
    apply andb_prop in H as [H1 H2].
    f_equal; [now apply Hx | now apply IHxs].
  - intros n IH [] H; simpl in H; try discriminate.
    f_equal. now apply IH.
  - intros cls fields IH [d gs] H. simpl in H.
    apply andb_prop in H as [Hc H].
    apply String.eqb_eq in Hc. subst d. f_equal.
    revert gs H.
    induction IH as [|[k x] fs Hx _ IHfs]; intros [|[l y] gs] H;
      try discriminate; [reflexivity|].
    apply andb_prop in H as [H H3].
    apply andb_prop in H as [H1 H2].
    apply String.eqb_eq in H1. subst l.
    f_equal; [f_equal; now apply Hx | now apply IHfs].
Qed.

Lemma same_tree_eq (n m : node) : same_tree n m = true -> n = m.
Proof. apply same_value_tree_eq. Qed.

(** ** The dump serializer *)

Section DumpFacts.

Variable repr : value -> string.

(** [_dump_impl] in the order of the source: [class_params] is
    [dict(iter_fields(node))], then the test on [indent] and on
    [len(class_params)], then one of the two renderings. *)
Lemma _dump_impl_unfold (n : node) (indent : string) (depth : Z) :
  _dump_impl repr n indent depth =
  let class_params := Py.dict (iter_fields n) in
  if Py.truthy indent && (0 <? Z.of_nat (length class_params))
  then multiline_form repr n indent depth
  else compact_form repr n.
Proof.
  destruct n as [cls fields]. cbn [_dump_impl iter_fields].
  rewrite (dict_map
             (fun v => (repr v, _dump_value_impl repr v indent (depth + 1)))
             fields).
  rewrite length_map.
  unfold multiline_form, compact_form. cbn [class_name iter_fields].
  rewrite !map_map. cbn [fst snd].
  reflexivity.
Qed.

Lemma dump_unfold (n : node) (indent : option indent_arg) :
  dump repr n indent = _dump_impl repr n (indent_text indent) 0.
Proof. destruct indent as [[z|s]|]; reflexivity. Qed.

Lemma str_mul_nonpos (s : string) (z : Z) : z <= 0 -> Py.str_mul s z = "".
Proof.
  intros Hz. unfold Py.str_mul.
  replace (Z.to_nat z) with O by lia. reflexivity.
Qed.

(** The code and the wording of the specification agree on every tree
    with distinct field names, for every indent and at every depth. *)
Lemma dump_as_declared :
  forall indent,
  (forall v, distinct_names_value v = true ->
     forall depth,
       _dump_value_impl repr v indent depth
       = dump_value_in_declared_order repr v indent depth) /\
  (forall n, distinct_names_node n = true ->
     forall depth,
       _dump_impl repr n indent depth
       = dump_node_in_declared_order repr n indent depth).
Proof.
  intros indent. apply value_node_mutind; try reflexivity.
  - intros [|x items] IH Hnames depth; [reflexivity|].
    cbn [distinct_names_value] in Hnames.
    cbn [_dump_value_impl dump_value_in_declared_order].
    do 3 f_equal. apply map_ext_in. intros v Hv.
    rewrite Forall_forall in IH.
    rewrite (IH v (proj2 (list_elem_of_In _ _) Hv)
               (proj1 (forallb_forall _ _) Hnames v Hv)).
    reflexivity.
  - intros n IH Hnames depth. exact (IH Hnames depth).
  - intros cls fields IH Hnames depth.
    cbn [distinct_names_node] in Hnames.
    apply andb_prop in Hnames as [Hnodup Hfields].
    apply bool_decide_eq_true in Hnodup.
    rewrite _dump_impl_unfold. cbv zeta.
    unfold multiline_form, compact_form. cbn [class_name iter_fields].
    rewrite (dict_distinct _ Hnodup).
    cbn [dump_node_in_declared_order].
    destruct (Py.truthy indent && (0 <? Z.of_nat (length fields)));
      [|reflexivity].
    do 3 f_equal. apply map_ext_in. intros nv Hnv.
    rewrite Forall_forall in IH.
    rewrite (IH nv (proj2 (list_elem_of_In _ _) Hnv)
               (proj1 (forallb_forall _ _) Hfields nv Hnv)).
    reflexivity.
Qed.

(** C6: [dump] is deterministic and never reorders fields. For two
    structurally identical trees (same node types, same fields in the same
    order, same values) whose nodes have pairwise distinct field names, as
    in an ordered mapping, the two dumps are the same text for every
    indent setting; and that text is the dump with the fields of every
    node, the root and every nested node alike, in the order in which the
    node declares them, neither sorted nor otherwise reordered. The same
    holds of [_dump_impl] for every indent text and at every depth. *)
Theorem dump_deterministic_in_field_order
  (n1 n2 : node) (indent : option indent_arg) :
  same_tree n1 n2 = true ->
  distinct_names_node n1 = true ->
  dump repr n1 indent = dump repr n2 indent /\
  dump repr n2 indent
  = dump_node_in_declared_order repr n1 (indent_text indent) 0 /\
  (forall indent_str depth,
      _dump_impl repr n2 indent_str depth
      = dump_node_in_declared_order repr n1 indent_str depth).
Proof.
  intros Hsame Hnames.
  apply same_tree_eq in Hsame. subst n2.
  split; [reflexivity|]. split.
  - rewrite dump_unfold.
    exact (proj2 (dump_as_declared (indent_text indent)) n1 Hnames 0).
  - intros indent_str depth.
    exact (proj2 (dump_as_declared indent_str) n1 Hnames depth).
Qed.

(** C7: a node without fields is dumped as [TypeName()] for every indent
    setting, and the multi-line form is used exactly when the indent is a
    non-empty text and the node has at least one field; in every other
    case the dump is the compact single-line form. *)
Theorem dump_without_fields_is_compact
  (cls : string) (indent : option indent_arg)
  (n : node) (indent_str : string) (depth : Z) :
  dump repr (Node cls []) indent = cls +:+ "()" /\
  _dump_impl repr n indent_str depth =
    (if Py.truthy indent_str && negb (bool_decide (iter_fields n = []))
     then multiline_form repr n indent_str depth
     else compact_form repr n).
Proof.
  split.
  - rewrite dump_unfold, _dump_impl_unfold. cbv zeta.
    cbn [iter_fields]. unfold Py.dict. cbn [fold_left length Z.of_nat].
    rewrite andb_false_r. reflexivity.
  - rewrite _dump_impl_unfold. cbv zeta. now rewrite dict_length_pos.
Qed.

(** C9: for an integer indent that is zero or negative, [dump] gives what
    it gives with the indent absent, which is the compact single-line
    form: the integer becomes the empty text. *)
Theorem dump_nonpositive_indent (n : node) (z : Z) :
  z <= 0 ->
  dump repr n (Some (IndentInt z)) = dump repr n None /\
  dump repr n (Some (IndentInt z)) = compact_form repr n.
Proof.
  intros Hz.
  rewrite !dump_unfold. cbn [indent_text].
  rewrite (str_mul_nonpos " " z Hz).
  split; [reflexivity|].
  rewrite _dump_impl_unfold. reflexivity.
Qed.

End DumpFacts.

Lemma dump_deterministic_in_field_order_witness :
  same_tree Demo2.nested Demo2.nested = true /\
  distinct_names_node Demo2.nested = true /\
  dump Demo.repr Demo2.nested (Some (IndentInt 2)) =
    "Script(" +:+ Py.nl +:+
    "  body=[" +:+ Py.nl +:+
    "    Expr(" +:+ Py.nl +:+
    "      value=Call(" +:+ Py.nl +:+
    "        func='foo'," +:+ Py.nl +:+
    "        args=[]," +:+ Py.nl +:+
    "      )," +:+ Py.nl +:+
    "    )," +:+ Py.nl +:+
    "    Pass()," +:+ Py.nl +:+
    "  ]," +:+ Py.nl +:+
    "  version='v1'," +:+ Py.nl +:+
    ")".
Proof.
  assert (Hsame : same_tree Demo2.nested Demo2.nested = true) by reflexivity.
  assert (Hnames : distinct_names_node Demo2.nested = true)
    by (vm_compute; reflexivity).
  split; [exact Hsame|]. split; [exact Hnames|].
  exact (eq_trans
           (proj1 (proj2 (dump_deterministic_in_field_order Demo.repr
                            Demo2.nested Demo2.nested (Some (IndentInt 2))
                            Hsame Hnames)))
           eq_refl).
Defined.

Lemma dump_nonpositive_indent_witness :
  -3 <= 0 /\
  dump Demo.repr Demo.call (Some (IndentInt (-3)))
  = "Call(func='foo', args=[1])".
Proof.
  assert (Hz : -3 <= 0) by lia.
  split; [exact Hz|].
  exact (eq_trans
           (proj2 (dump_nonpositive_indent Demo.repr Demo.call (-3) Hz))
           eq_refl).
Defined.

(** ** Lines of a text *)

Lemma split_not_nil (sep : ascii) (s : string) : Py.split sep s <> [].
Proof.
  destruct s as [|c rest]; simpl; [discriminate|].
  destruct (Ascii.eqb c sep); [discriminate|].
  destruct (Py.split sep rest); discriminate.
Qed.

(** The lines and the separators between them make up the text. *)
Lemma split_length_sum (sep : ascii) (s : string) :
  list_sum (map (fun line => S (String.length line)) (Py.split sep s))
  = S (String.length s).
Proof.
  induction s as [|c rest IH]; simpl; [reflexivity|].
  destruct (Ascii.eqb c sep); simpl.
  - now rewrite IH.
  - pose proof (split_not_nil sep rest) as Hne.
    destruct (Py.split sep rest) as [|hd tl]; [contradiction|].
    simpl in *. lia.
Qed.

Lemma lookup_length_sum (lines : list string) (j : nat) (line : string) :
  lines !! j = Some line ->
  (j + S (String.length line)
   <= list_sum (map (fun line => S (String.length line)) lines))%nat.
Proof.
  revert j. induction lines as [|hd tl IH]; intros [|j] Hj; simpl in *;
    try discriminate.
  - injection Hj as ->. lia.
  - specialize (IH j Hj). lia.
Qed.

(** A line of a text that is not empty has an index below the length of
    the text. *)
Lemma split_lookup_lt (sep : ascii) (s : string) (j : nat) (line : string) :
  Py.split sep s !! j = Some line -> line <> "" ->
  (j < String.length s)%nat.
Proof.
  intros Hj Hne.
  pose proof (lookup_length_sum _ _ _ Hj) as Hsum.
  rewrite split_length_sum in Hsum.
  destruct line; [contradiction|]. simpl in Hsum. lia.
Qed.

(** ** The recursion ceiling *)

Create HintDb ceiling.

Lemma keeps_ceiling_ret {A} (a : A) : keeps_ceiling (ret a).
Proof. intros w. reflexivity. Qed.

Lemma keeps_ceiling_raise {A} (e : exn) : keeps_ceiling (@raise A e).
Proof. intros w. reflexivity. Qed.

Lemma keeps_ceiling_lift {A} (r : result A) : keeps_ceiling (lift r).
Proof. intros w. reflexivity. Qed.

Lemma keeps_ceiling_print (line : string) : keeps_ceiling (print line).
Proof. intros w. reflexivity. Qed.

Lemma keeps_ceiling_bind {A B} (m : M A) (k : A -> M B) :
  keeps_ceiling m -> (forall a, keeps_ceiling (k a)) -> keeps_ceiling (bind m k).
Proof.
  intros Hm Hk w. unfold bind.
  specialize (Hm w). destruct (m w) as [[a|e] w']; simpl in *.
  - now rewrite Hk.
  - exact Hm.
Qed.

Lemma keeps_ceiling_try {A} (body : M A) (handler : parse_failure -> M A) :
  keeps_ceiling body -> (forall err, keeps_ceiling (handler err)) ->
  keeps_ceiling (try_except_ParseException body handler).
Proof.
  intros Hb Hh w. unfold try_except_ParseException.
  specialize (Hb w). destruct (body w) as [[a|[err|msg| | |name]] w']; simpl in *;
    try exact Hb.
  now rewrite Hh.
Qed.

(** The scope restores the ceiling whatever its body does to it. *)
Lemma keeps_ceiling_context {A} (limit : Z) (body : M A) :
  keeps_ceiling (recursion_limit_context limit body).
Proof.
  intros w. unfold recursion_limit_context.
  destruct (limit <? 1); [reflexivity|].
  destruct (body _) as [r w']. reflexivity.
Qed.

#[local] Hint Resolve keeps_ceiling_ret keeps_ceiling_raise keeps_ceiling_lift
  keeps_ceiling_print keeps_ceiling_context : ceiling.

Section ParserFacts.

Context {collaborators : Collaborators}.

Lemma keeps_ceiling_print_annotated (d : debug_info) (err : parse_failure)
  (tab_width : Z) (lines : list string) (i : Z) :
  keeps_ceiling (print_annotated d err tab_width lines i).
Proof.
  revert i. induction lines as [|line rest IH]; intros i; cbn [print_annotated].
  - auto with ceiling.
  - apply keeps_ceiling_bind; [auto with ceiling|]. intros _.
    apply keeps_ceiling_bind; [|intros _; apply IH].
    destruct (negb _); [auto with ceiling|].
    destruct (Py.index _ _); [|auto with ceiling].
    apply keeps_ceiling_bind; auto with ceiling.
Qed.

Lemma keeps_ceiling_handler (dbg : option debug_info) (tab_width : Z)
  (err : parse_failure) :
  keeps_ceiling (on_parse_exception dbg tab_width err).
Proof.
  unfold on_parse_exception.
  apply keeps_ceiling_bind; [|auto with ceiling].
  destruct dbg as [d|]; [|auto with ceiling].
  repeat (apply keeps_ceiling_bind; [auto with ceiling|]; intros _).
  apply keeps_ceiling_print_annotated.
Qed.

(** *** The debug preparation *)

(** The scan for the line numbered 1 finds it when it lies within the
    indices the loop visits. *)
Lemma find_source_start_found (lines : list string) (j : nat) (line : string) :
  lines !! j = Some line ->
  Py.startswith "1:" (Py.lstrip line) = true ->
  forall count i, (i <= j < i + count)%nat ->
  exists start, find_source_start lines i count = Return start.
Proof.
  intros Hj Hline count.
  induction count as [|count IH]; intros i Hi; [lia|].
  cbn [find_source_start].
  destruct (lines !! i) as [line_i|] eqn:Hi_line.
  - destruct (Py.startswith "1:" (Py.lstrip line_i)) eqn:Hmatch; [eauto|].
    destruct (decide (i = j)) as [->|Hne].
    + congruence.
    + apply IH. lia.
  - apply lookup_ge_None in Hi_line.
    apply lookup_lt_Some in Hj. lia.
Qed.

(** An annotated text that is empty or has a line numbered 1 lets the
    debug preparation complete: the loop runs over the length of the text
    instead of the number of its lines, and still stops in time. *)
Lemma debug_prepare_numbered (source : string) (tab_width : Z) :
  numbered_from_one
    (with_line_numbers (Py.expandtabs tab_width source)) = true ->
  exists d, debug_prepare source tab_width = Return d.
Proof.
  unfold numbered_from_one, debug_prepare.
  set (annotated := with_line_numbers (Py.expandtabs tab_width source)).
  intros Hnum.
  assert (Hstart : exists start,
             find_source_start (Py.split Py.newline annotated) 0
               (String.length annotated) = Return start).
  { apply orb_prop in Hnum as [Hempty|Hline].
    - apply String.eqb_eq in Hempty. rewrite Hempty. simpl. eauto.
    - apply existsb_exists in Hline as (line & Hin & Hmatch).
      apply list_elem_of_In, list_elem_of_lookup in Hin as [j Hj].
      apply (find_source_start_found _ j line Hj Hmatch).
      split; [lia|]. simpl.
      apply (split_lookup_lt _ _ _ _ Hj).
      intros ->. discriminate. }
  destruct Hstart as [[line_index column_index] ->]. eauto.
Qed.

(** *** The printed diagnostic *)

Lemma world_eta (w : world) : World (ceiling w) (stdout w) = w.
Proof. now destruct w. Qed.

(** Without a line at the failing line number, the annotated lines are
    printed as they are. *)
Lemma print_annotated_no_caret (d : debug_info) (err : parse_failure)
  (tab_width : Z) (lines : list string) (i : Z) (w : world) :
  (forall k, (k < length lines)%nat -> i + Z.of_nat k <> caret_row d err) ->
  print_annotated d err tab_width lines i w
  = (Return tt, World (ceiling w) (stdout w ++ lines)).
Proof.
  revert i w. induction lines as [|line rest IH]; intros i w Hrow.
  - simpl. unfold ret. now rewrite app_nil_r, world_eta.
  - cbn [print_annotated]. unfold bind at 1. cbn [print].
    assert (Hhere : (lineno err =? i - actual_source_start_line_index d + 1)
                    = false).
    { apply Z.eqb_neq. specialize (Hrow O ltac:(simpl; lia)).
      unfold caret_row in Hrow. lia. }
    rewrite Hhere. cbn [negb]. unfold bind at 1, ret at 1.
    rewrite IH.
    + cbn [ceiling stdout]. now rewrite <- app_assoc.
    + intros k Hk. specialize (Hrow (S k) ltac:(simpl; lia)). lia.
Qed.

(** With the failing line among the annotated lines and in the source, the
    two caret lines are printed right under it. *)
Lemma print_annotated_caret (d : debug_info) (err : parse_failure)
  (tab_width : Z) (source_line : string) (lines : list string) (i : Z)
  (w : world) :
  Py.index (source_lines d) (lineno err - 1) = Some source_line ->
  0 <= caret_row d err - i < Z.of_nat (length lines) ->
  print_annotated d err tab_width lines i w
  = (Return tt,
     World (ceiling w)
       (stdout w ++
        take (S (Z.to_nat (caret_row d err - i))) lines ++
        caret_lines d err tab_width source_line ++
        drop (S (Z.to_nat (caret_row d err - i))) lines)).
Proof.
  intros Hline. revert i w.
  induction lines as [|line rest IH]; intros i w Hrow; [simpl in Hrow; lia|].
  cbn [print_annotated]. unfold bind at 1. cbn [print].
  destruct (Z.eq_dec (caret_row d err) i) as [Heq|Hne].
  - assert (Hhere : (lineno err =? i - actual_source_start_line_index d + 1)
                    = true).
    { apply Z.eqb_eq. unfold caret_row in Heq. lia. }
    rewrite Hhere, Hline. cbn [negb].
    unfold bind at 1. unfold bind at 1. cbn [print ceiling stdout].
    rewrite print_annotated_no_caret.
    + replace (caret_row d err - i) with 0 by lia.
      cbn [Z.to_nat take drop ceiling stdout]. rewrite take_0, drop_0.
      unfold caret_lines. f_equal. f_equal.
      rewrite <- !app_assoc. reflexivity.
    + intros k _. lia.
  - assert (Hhere : (lineno err =? i - actual_source_start_line_index d + 1)
                    = false).
    { apply Z.eqb_neq. unfold caret_row in Hne. lia. }
    rewrite Hhere. cbn [negb]. unfold bind at 1, ret at 1.
    rewrite IH by (simpl in Hrow; lia).
    cbn [ceiling stdout].
    replace (Z.to_nat (caret_row d err - i))
      with (S (Z.to_nat (caret_row d err - (i + 1)))) by lia.
    cbn [take drop]. now rewrite <- app_assoc.
Qed.

(** *** The run of [parse_string] *)

(** When the grammar returns, so does [parse_string], with the world as it
    was. *)
Lemma parse_string_grammar_returns (source : string) (o : options) (w : world)
  (dbg : option debug_info) (results : list node) :
  debug_state source o dbg ->
  0 < recursion_limit o ->
  script_parse (recursion_limit o)
    (comment_transform (prepared_source source o)) (parse_all o)
  = Return results ->
  parse_string source o w
  = (Return (returned_node results
               (version_of_source (prepared_source source o))), w).
Proof.
  intros Hdbg Hlimit Hparse. unfold parse_string.
  assert (Hpre :
    (if debug o
     then bind (lift (debug_prepare (prepared_source source o) (tab_width o)))
            (fun d => ret (Some d))
     else ret None) w = (Return dbg, w)).
  { destruct dbg as [d|]; simpl in Hdbg.
    - destruct Hdbg as [-> ->]. reflexivity.
    - rewrite Hdbg. reflexivity. }
  unfold bind at 1. rewrite Hpre.
  unfold bind at 1, try_except_ParseException, recursion_limit_context.
  replace (recursion_limit o <? 1) with false by (symmetry; apply Z.ltb_ge; lia).
  cbn [ceiling stdout]. rewrite Hparse, world_eta.
  reflexivity.
Qed.

(** When the grammar signals a syntax failure, the handler runs with the
    ceiling already restored. *)
Lemma parse_string_grammar_fails (source : string) (o : options) (w : world)
  (dbg : option debug_info) (err : parse_failure) :
  debug_state source o dbg ->
  0 < recursion_limit o ->
  script_parse (recursion_limit o)
    (comment_transform (prepared_source source o)) (parse_all o)
  = Raise (ParseException err) ->
  parse_string source o w
  = match on_parse_exception dbg (tab_width o) err w with
    | (Return _, w') => (Raise (ParseException err), w')
    | (Raise e, w') => (Raise e, w')
    end.
Proof.
  intros Hdbg Hlimit Hparse. unfold parse_string.
  assert (Hpre :
    (if debug o
     then bind (lift (debug_prepare (prepared_source source o) (tab_width o)))
            (fun d => ret (Some d))
     else ret None) w = (Return dbg, w)).
  { destruct dbg as [d|]; simpl in Hdbg.
    - destruct Hdbg as [-> ->]. reflexivity.
    - rewrite Hdbg. reflexivity. }
  unfold bind at 1. rewrite Hpre.
  unfold bind at 1, try_except_ParseException, recursion_limit_context.
  replace (recursion_limit o <? 1) with false by (symmetry; apply Z.ltb_ge; lia).
  cbn [ceiling stdout]. rewrite Hparse, world_eta.
  unfold on_parse_exception, bind, raise.
  destruct dbg as [d|].
  - cbn [print ceiling stdout].
    destruct (print_annotated _ _ _ _ _ _) as [[[]|e] w']; reflexivity.
  - reflexivity.
Qed.

Lemma debug_state_exists (source : string) (o : options) :
  (debug o = true ->
   numbered_from_one
     (with_line_numbers
        (Py.expandtabs (tab_width o) (prepared_source source o))) = true) ->
  exists dbg, debug_state source o dbg.
Proof.
  intros Hnum. destruct (debug o) eqn:Hdebug.
  - destruct (debug_prepare_numbered _ _ (Hnum eq_refl)) as [d Hd].
    exists (Some d). simpl. auto.
  - exists None. exact Hdebug.
Qed.

(** The handler never returns. *)
Lemma on_parse_exception_raises (dbg : option debug_info) (tab_width : Z)
  (err : parse_failure) (w : world) :
  exists e w', on_parse_exception dbg tab_width err w = (Raise e, w').
Proof.
  unfold on_parse_exception, bind at 1.
  match goal with
  | |- context [match ?m w with _ => _ end] =>
      destruct (m w) as [[[]|e] w']
  end; unfold raise; eauto.
Qed.

(** [parse_string] returns only what it makes of the results of the
    grammar. *)
Lemma parse_string_returns_inv (source : string) (o : options) (w w' : world)
  (n : node) :
  parse_string source o w = (Return n, w') ->
  exists results,
    script_parse (recursion_limit o)
      (comment_transform (prepared_source source o)) (parse_all o)
    = Return results /\
    n = returned_node results (version_of_source (prepared_source source o)).
Proof.
  unfold parse_string, bind at 1.
  match goal with
  | |- context [match ?m w with _ => _ end] =>
      destruct (m w) as [[dbg|e] w1]
  end; [|discriminate].
  unfold bind at 1, try_except_ParseException, recursion_limit_context.
  destruct (recursion_limit o <? 1); [discriminate|].
  cbn [ceiling stdout].
  destruct (script_parse _ _ _) as [results|[err|msg| | |name]];
    try discriminate.
  - intros H. injection H as <- _. eauto.
  - destruct (on_parse_exception_raises dbg (tab_width o) err
                (World (ceiling w1) (stdout w1))) as (e & w2 & ->).
    discriminate.
Qed.

(** *** Attributes *)

Lemma field_lookup_dict_set (fs : list (string * value)) (name : string)
  (v : value) :
  field_lookup (Py.dict_set fs name v) name = Some v.
Proof.
  induction fs as [|[k x] fs IH]; simpl.
  - now rewrite String.eqb_refl.
  - destruct (String.eqb k name) eqn:Hk; simpl; rewrite Hk; auto.
Qed.

Lemma getattr_setattr (n : node) (name : string) (v : value) :
  getattr (setattr n name v) name = v.
Proof.
  destruct n as [cls fs]. unfold getattr. cbn [setattr iter_fields].
  now rewrite field_lookup_dict_set.
Qed.

Lemma is_not_None_false (v : value) : is_not_None v = false -> v = VNone.
Proof. destruct v; simpl; congruence. Qed.

(** *** The claims on [parse_string] *)

(** C2: the version of the node [parse_string] returns is the value the
    first version directive of the (tab-expanded) source captured, wherever
    the directive stands and whatever the grammar parsed; without a
    directive the node has no version. The grammar itself attaches no
    version to its root node. *)
Theorem parse_string_version_is_first_directive
  (source : string) (o : options) (w w' : world) (n : node) :
  (forall first rest,
      script_parse (recursion_limit o)
        (comment_transform (prepared_source source o)) (parse_all o)
      = Return (first :: rest) ->
      getattr first "version" = VNone) ->
  parse_string source o w = (Return n, w') ->
  (forall version_result others,
      version_search (prepared_source source o) = version_result :: others ->
      getattr n "version" = results_get version_result "version") /\
  (version_search (prepared_source source o) = [] ->
   getattr n "version" = VNone).
Proof.
  intros Hgrammar Hrun.
  apply parse_string_returns_inv in Hrun as (results & Hparse & ->).
  assert (Hversion :
    getattr (returned_node results
               (version_of_source (prepared_source source o))) "version"
    = version_of_source (prepared_source source o)).
  { unfold returned_node.
    destruct (is_not_None (version_of_source _)) eqn:Hsome.
    - apply getattr_setattr.
    - rewrite (is_not_None_false _ Hsome).
      destruct results as [|first rest]; [reflexivity|].
      exact (Hgrammar first rest Hparse). }
  rewrite Hversion. unfold version_of_source.
  split.
  - intros version_result others ->. reflexivity.
  - intros ->. reflexivity.
Qed.

(** C3: when the grammar returns an empty result set, [parse_string] does
    not fail: it returns a synthesized [Script] node whose statement
    sequence is empty, and which has no version when the source has no
    directive. *)
Theorem parse_string_empty_results (source : string) (o : options) (w : world) :
  (debug o = true ->
   numbered_from_one
     (with_line_numbers
        (Py.expandtabs (tab_width o) (prepared_source source o))) = true) ->
  0 < recursion_limit o ->
  script_parse (recursion_limit o)
    (comment_transform (prepared_source source o)) (parse_all o)
  = Return [] ->
  exists n,
    parse_string source o w = (Return n, w) /\
    class_name n = "Script" /\
    getattr n "body" = VList [] /\
    (version_search (prepared_source source o) = [] ->
     n = Script [] /\ getattr n "version" = VNone).
Proof.
  intros Hnum Hlimit Hparse.
  destruct (debug_state_exists source o Hnum) as [dbg Hdbg].
  eexists. split.
  { exact (parse_string_grammar_returns source o w dbg [] Hdbg Hlimit Hparse). }
  unfold returned_node, version_of_source.
  destruct (version_search (prepared_source source o)) as [|m ms].
  - split; [reflexivity|]. split; [reflexivity|]. intros _. now split.
  - destruct (is_not_None (results_get m "version"));
      (split; [reflexivity|]; split; [reflexivity|]; discriminate).
Qed.

(** C4: when the grammar signals a syntax failure and debug is enabled,
    [parse_string] prints the diagnostic and then raises that very
    failure, unchanged: never a success and never another error. When the
    failing line has no row among the annotated lines, these lines are
    printed without a caret and the failure is raised all the same;
    otherwise the two caret lines stand right under the failing line. The
    line the grammar reports is a line of the source whenever it has a row
    among the annotated lines. *)
Theorem parse_string_debug_reraises (source : string) (o : options)
  (w : world) (err : parse_failure) (d : debug_info) :
  debug o = true ->
  0 < recursion_limit o ->
  debug_prepare (prepared_source source o) (tab_width o) = Return d ->
  script_parse (recursion_limit o)
    (comment_transform (prepared_source source o)) (parse_all o)
  = Raise (ParseException err) ->
  (0 <= caret_row d err
     < Z.of_nat (length (source_lines_formatted_for_debug d)) ->
   1 <= lineno err <= Z.of_nat (length (source_lines d))) ->
  exists printed,
    parse_string source o w
    = (Raise (ParseException err),
       World (ceiling w)
         (stdout w ++ "" :: "Error while parsing source:" :: printed)) /\
    (~ 0 <= caret_row d err
         < Z.of_nat (length (source_lines_formatted_for_debug d)) ->
     printed = source_lines_formatted_for_debug d) /\
    (0 <= caret_row d err
       < Z.of_nat (length (source_lines_formatted_for_debug d)) ->
     exists source_line,
       Py.index (source_lines d) (lineno err - 1) = Some source_line /\
       printed =
         take (S (Z.to_nat (caret_row d err)))
           (source_lines_formatted_for_debug d) ++
         caret_lines d err (tab_width o) source_line ++
         drop (S (Z.to_nat (caret_row d err)))
           (source_lines_formatted_for_debug d)).
Proof.
  intros Hdebug Hlimit Hd Hparse Hline.
  rewrite (parse_string_grammar_fails source o w (Some d) err
             (conj Hdebug Hd) Hlimit Hparse).
  unfold on_parse_exception, bind, raise. cbn [print ceiling stdout].
  destruct (decide (0 <= caret_row d err
                    < Z.of_nat (length (source_lines_formatted_for_debug d))))
    as [Hin|Hout].
  - destruct (Hline Hin) as [Hlo Hhi].
    assert (Hsrc : exists source_line,
               Py.index (source_lines d) (lineno err - 1) = Some source_line).
    { unfold Py.index.
      replace (lineno err - 1 <? 0) with false by (symmetry; apply Z.ltb_ge; lia).
      apply lookup_lt_is_Some. lia. }
    destruct Hsrc as [source_line Hsrc].
    rewrite (print_annotated_caret d err (tab_width o) source_line)
      by (try exact Hsrc; lia).
    cbn [ceiling stdout]. rewrite Z.sub_0_r.
    eexists. split.
    + rewrite <- !app_assoc. reflexivity.
    + split; [intros Hno; contradiction|].
      intros _. exists source_line. split; [exact Hsrc|reflexivity].
  - rewrite print_annotated_no_caret.
    + cbn [ceiling stdout]. eexists. split.
      * rewrite <- !app_assoc. reflexivity.
      * split; [reflexivity|]. intros Hin. contradiction.
    + intros k Hk Heq. apply Hout. lia.
Qed.

(** Outside that condition the handler itself fails: a failing line with a
    row among the annotated lines but beyond the lines of the source makes
    [source_lines[err.lineno - 1]] raise [IndexError]. *)
Lemma print_annotated_index_error (d : debug_info) (err : parse_failure)
  (tab_width : Z) (lines : list string) (i : Z) (w : world) :
  Py.index (source_lines d) (lineno err - 1) = None ->
  0 <= caret_row d err - i < Z.of_nat (length lines) ->
  exists w', print_annotated d err tab_width lines i w = (Raise IndexError, w').
Proof.
  intros Hline. revert i w.
  induction lines as [|line rest IH]; intros i w Hrow; [simpl in Hrow; lia|].
  cbn [print_annotated]. unfold bind at 1. cbn [print].
  destruct (Z.eq_dec (caret_row d err) i) as [Heq|Hne].
  - assert (Hhere : (lineno err =? i - actual_source_start_line_index d + 1)
                    = true).
    { apply Z.eqb_eq. unfold caret_row in Heq. lia. }
    rewrite Hhere, Hline. cbn [negb]. unfold bind, raise. eauto.
  - assert (Hhere : (lineno err =? i - actual_source_start_line_index d + 1)
                    = false).
    { apply Z.eqb_neq. unfold caret_row in Hne. lia. }
    rewrite Hhere. cbn [negb]. unfold bind at 1, ret at 1.
    apply IH. simpl in Hrow. lia.
Qed.

(** C10: [parse_string] writes the version of the root node only when a
    directive was found: for a source without a directive the node the
    grammar produced is returned exactly as it is, its version and every
    other field untouched, and the world is as before. *)
Theorem parse_string_without_directive_passes_node
  (source : string) (o : options) (w : world) (first : node)
  (rest : list node) :
  version_search (prepared_source source o) = [] ->
  (debug o = true ->
   numbered_from_one
     (with_line_numbers
        (Py.expandtabs (tab_width o) (prepared_source source o))) = true) ->
  0 < recursion_limit o ->
  script_parse (recursion_limit o)
    (comment_transform (prepared_source source o)) (parse_all o)
  = Return (first :: rest) ->
  parse_string source o w = (Return first, w).
Proof.
  intros Hnone Hnum Hlimit Hparse.
  destruct (debug_state_exists source o Hnum) as [dbg Hdbg].
  rewrite (parse_string_grammar_returns source o w dbg (first :: rest)
             Hdbg Hlimit Hparse).
  unfold returned_node, version_of_source. rewrite Hnone. reflexivity.
Qed.

(** C5: after every call of [parse_string], whether it returns a node or
    raises (a syntax failure of the grammar, any other exception of the
    grammar, a refused ceiling, a failure of the debug preparation), the
    ambient recursion ceiling is what it was before the call. *)
Theorem parse_string_restores_ceiling (source : string) (o : options)
  (w : world) :
  ceiling (snd (parse_string source o w)) = ceiling w.
Proof.
  revert w. change (keeps_ceiling (parse_string source o)).
  unfold parse_string.
  apply keeps_ceiling_bind.
  - destruct (debug o); [|auto with ceiling].
    apply keeps_ceiling_bind; auto with ceiling.
  - intros dbg. apply keeps_ceiling_bind; [|auto with ceiling].
    apply keeps_ceiling_try; [auto with ceiling|].
    apply keeps_ceiling_handler.
Qed.

End ParserFacts.

(** ** Input normalisation and dispatch *)

Section InputFacts.

Context {collaborators : Collaborators} {file_system : FileSystem}.

(** The kinds of input [parse_file] decodes. *)
Lemma parse_file_text_stream (text : string) (encoding : option string)
  (o : options) (w : world) :
  parse_file (PTextIO (Return text)) encoding o w = parse_string text o w.
Proof. reflexivity. Qed.

Lemma parse_file_raw_stream (b : list Byte.byte) (text : string)
  (encoding : option string) (o : options) (w : world) :
  decode (default "utf-8" encoding) b = Return text ->
  parse_file (PRawIO b) encoding o w = parse_string text o w.
Proof.
  intros Hdecode. unfold parse_file. simpl.
  unfold bind, lift, ret.
  destruct encoding; simpl in *; now rewrite Hdecode.
Qed.

Lemma parse_file_path (p text : string) (encoding : option string)
  (o : options) (w : world) :
  open_text p (default "utf-8" encoding) = Return (Return text) ->
  parse_file (PStr p) encoding o w = parse_string text o w
  /\ parse_file (PPath p) encoding o w = parse_string text o w.
Proof.
  intros Hopen. unfold parse_file. simpl.
  unfold bind, lift, ret.
  destruct encoding; simpl in *; now rewrite Hopen.
Qed.

(** The kinds it refuses besides arbitrary objects: a path-like that is
    not a [pathlib.Path], and a buffered binary stream. *)
Lemma parse_file_refused (type_name p : string) (b : list Byte.byte)
  (encoding : option string) (o : options) (w : world) :
  parse_file (PPathLike type_name p) encoding o w
  = (Raise (TypeError ("Unsupported argument type: <class '" +:+ type_name
                       +:+ "'>")), w)
  /\ parse_file (PBufferedIO type_name b) encoding o w
  = (Raise (TypeError ("Unsupported argument type: <class '" +:+ type_name
                       +:+ "'>")), w).
Proof. split; reflexivity. Qed.

(** C1 (as the code has it): a [bytes] argument is wrapped in a [BytesIO],
    which is a buffered stream and not a [RawIOBase]; it is therefore
    neither wrapped for decoding nor read, and [parse_file] raises the
    unsupported-type error for it, whatever the bytes and the encoding. *)
Theorem parse_file_bytes_unsupported (b : list Byte.byte)
  (encoding : option string) (o : options) (w : world) :
  parse_file (PBytes b) encoding o w
  = (Raise (TypeError "Unsupported argument type: <class '_io.BytesIO'>"), w).
Proof. reflexivity. Qed.

(** When the existence test answers, [parse] dispatches on its first
    argument: a text that names no existing path goes to [parse_string];
    everything else, a text naming an existing path included, goes to
    [parse_file] with the same encoding and options. *)
Lemma parse_dispatch (source : pyobj) (encoding : option string)
  (o : options) :
  (forall text,
      source = PStr text -> path_exists text = Return false ->
      parse source encoding o = parse_string text o) /\
  ((forall text, source = PStr text -> path_exists text = Return true) ->
   parse source encoding o = parse_file source encoding o).
Proof.
  split.
  - intros text -> Hexists. unfold parse. now rewrite Hexists.
  - intros Hother. unfold parse.
    destruct source as [text| | | | | | |]; try reflexivity.
    now rewrite (Hother text eq_refl).
Qed.

(** C8 (as the code has it): [parse] asks [Path(source).exists()] of every
    text it is given. When the system refuses the name, as it does for a
    source text with a run of more than 255 characters without a slash,
    the error of the test leaves [parse]: neither [parse_string] nor
    [parse_file] is called, for a text that names no existing path. *)
Theorem parse_existence_test_raises (text : string) (e : exn)
  (encoding : option string) (o : options) (w : world) :
  path_exists text = Raise e ->
  parse (PStr text) encoding o w = (Raise e, w).
Proof. intros Hexists. unfold parse, bind, lift. now rewrite Hexists. Qed.

End InputFacts.

(** ** The statements at concrete inputs *)

Lemma parse_string_version_is_first_directive_witness :
  parse_string "//@version=5" default_options Demo.world0
  = (Return (setattr (Script [VStr "//@version=5"]) "version" (VStr "5")),
     Demo.world0) /\
  getattr (setattr (Script [VStr "//@version=5"]) "version" (VStr "5"))
    "version"
  = VStr "5".
Proof.
  assert (Hrun :
    parse_string "//@version=5" default_options Demo.world0
    = (Return (setattr (Script [VStr "//@version=5"]) "version" (VStr "5")),
       Demo.world0)) by reflexivity.
  assert (Hgrammar : forall first rest,
    script_parse (recursion_limit default_options)
      (comment_transform (prepared_source "//@version=5" default_options))
      (parse_all default_options)
    = Return (first :: rest) ->
    getattr first "version" = VNone).
  { intros first rest H. vm_compute in H. injection H as <- _. reflexivity. }
  split; [exact Hrun|].
  exact (proj1 (parse_string_version_is_first_directive
                  "//@version=5" default_options Demo.world0 Demo.world0 _
                  Hgrammar Hrun)
           {[ "version" := VStr "5" ]} [] eq_refl).
Defined.

Lemma parse_string_empty_results_witness :
  exists n,
    parse_string "" Demo.debug_options Demo.world0 = (Return n, Demo.world0) /\
    class_name n = "Script" /\
    getattr n "body" = VList [] /\
    (version_search (prepared_source "" Demo.debug_options) = [] ->
     n = Script [] /\ getattr n "version" = VNone).
Proof.
  apply (parse_string_empty_results "" Demo.debug_options Demo.world0).
  - intros _. reflexivity.
  - reflexivity.
  - reflexivity.
Defined.

Lemma parse_string_debug_reraises_witness :
  exists printed,
    parse_string Demo.failing_source Demo.debug_options Demo.world0
    = (Raise (ParseException Demo.failure),
       World 1000 ("" :: "Error while parsing source:" :: printed)) /\
    printed =
      ["  1234567890"; "1:?x|"; "  ^"; "  Expected statement"; "2:y|"; ""].
Proof.
  destruct (parse_string_debug_reraises
              Demo.failing_source Demo.debug_options Demo.world0
              Demo.failure Demo.failing_debug_info)
    as (printed & Hrun & _ & Hcaret).
  - reflexivity.
  - reflexivity.
  - reflexivity.
  - reflexivity.
  - intros _. vm_compute. split; discriminate.
  - exists printed. split; [exact Hrun|].
    destruct Hcaret as (source_line & Hline & ->).
    + vm_compute. split; [discriminate|reflexivity].
    + vm_compute in Hline. injection Hline as <-. reflexivity.
Defined.

Lemma parse_string_without_directive_passes_node_witness :
  parse_string "plot(close)" Demo.debug_options Demo.world0
  = (Return (Script [VStr "plot(close)"]), Demo.world0).
Proof.
  apply (parse_string_without_directive_passes_node
           "plot(close)" Demo.debug_options Demo.world0
           (Script [VStr "plot(close)"]) []).
  - reflexivity.
  - intros _. reflexivity.
  - reflexivity.
  - reflexivity.
Defined.

Lemma parse_existence_test_raises_witness :
  path_exists Demo.long_source = Raise (OtherError "OSError") /\
  parse (PStr Demo.long_source) None default_options Demo.world0
  = (Raise (OtherError "OSError"), Demo.world0).
Proof.
  assert (Hexists : path_exists Demo.long_source = Raise (OtherError "OSError"))
    by (vm_compute; reflexivity).
  split; [exact Hexists|].
  exact (parse_existence_test_raises Demo.long_source (OtherError "OSError")
           None default_options Demo.world0 Hexists).
Defined.

(** * Further properties of the code *)

(** ** More on [dict(...)] *)

Section DictMore.

Context {V : Type}.

Lemma dict_set_keys_NoDup (d : list (string * V)) (k : string) (v : V) :
  NoDup (map fst d) -> NoDup (map fst (Py.dict_set d k v)).
Proof.
  intros Hnd.
  destruct (decide (k ∈ map fst d)) as [Hin|Hout].
  - (* the key is there: the keys do not change *)
    assert (Hkeys : map fst (Py.dict_set d k v) = map fst d).
    { clear Hnd. induction d as [|[k' v'] d IH]; simpl in *.
      - inversion Hin.
      - destruct (String.eqb_spec k' k) as [->|Hne]; simpl; [reflexivity|].
        f_equal. apply IH. apply elem_of_cons in Hin as [Heq|Hin]; congruence. }
    now rewrite Hkeys.
  - rewrite (dict_set_fresh d k v Hout), map_app. simpl.
    apply NoDup_app. split; [exact Hnd|]. split.
    + intros x Hx Hx'. apply list_elem_of_singleton in Hx'. congruence.
    + apply NoDup_singleton.
Qed.

Lemma dict_fold_keys_NoDup (pairs acc : list (string * V)) :
  NoDup (map fst acc) ->
  NoDup (map fst
           (fold_left (fun d kv => Py.dict_set d (fst kv) (snd kv)) pairs acc)).
Proof.
  revert acc. induction pairs as [|[k v] pairs IH]; intros acc Hnd; simpl.
  - exact Hnd.
  - apply IH, dict_set_keys_NoDup, Hnd.
Qed.

(** The keys of a dict are pairwise distinct. *)
Lemma dict_keys_NoDup (pairs : list (string * V)) :
  NoDup (map fst (Py.dict pairs)).
Proof. apply dict_fold_keys_NoDup. constructor. Qed.

(** Building a dict from the items of a dict changes nothing. *)
Lemma dict_idempotent (pairs : list (string * V)) :
  Py.dict (Py.dict pairs) = Py.dict pairs.
Proof. apply dict_distinct, dict_keys_NoDup. Qed.

End DictMore.

Lemma field_lookup_app (fs gs : list (string * value)) (name : string) :
  field_lookup (fs ++ gs) name
  = match field_lookup fs name with
    | Some v => Some v
    | None => field_lookup gs name
    end.
Proof.
  induction fs as [|[k v] fs IH]; simpl; [reflexivity|].
  destruct (String.eqb k name); [reflexivity|exact IH].
Qed.

Lemma field_lookup_dict_set_other (fs : list (string * value))
  (name other : string) (v : value) :
  name <> other ->
  field_lookup (Py.dict_set fs name v) other = field_lookup fs other.
Proof.
  intros Hne. induction fs as [|[k x] fs IH]; simpl.
  - destruct (String.eqb_spec name other); [contradiction|reflexivity].
  - destruct (String.eqb_spec k name) as [->|Hk]; simpl.
    + destruct (String.eqb_spec name other); [contradiction|reflexivity].
    + destruct (String.eqb k other); [reflexivity|exact IH].
Qed.

Lemma field_lookup_dict_fold (pairs acc : list (string * value))
  (name : string) :
  field_lookup
    (fold_left (fun d kv => Py.dict_set d (fst kv) (snd kv)) pairs acc) name
  = match field_lookup (reverse pairs) name with
    | Some v => Some v
    | None => field_lookup acc name
    end.
Proof.
  revert acc. induction pairs as [|[k v] pairs IH]; intros acc; simpl.
  - reflexivity.
  - rewrite IH, reverse_cons, field_lookup_app. simpl.
    destruct (field_lookup (reverse pairs) name); [reflexivity|].
    destruct (String.eqb_spec k name) as [->|Hne].
    + apply field_lookup_dict_set.
    + now apply field_lookup_dict_set_other.
Qed.

(** *** The items of a dict, read off the pairs *)

Lemma dict_set_keys {V} (d : list (string * V)) (k : string) (v : V) :
  map fst (Py.dict_set d k v)
  = if bool_decide (k ∈ map fst d) then map fst d else map fst d ++ [k].
Proof.
  induction d as [|[k' v'] d IH]; [reflexivity|].
  cbn [Py.dict_set map fst].
  destruct (String.eqb_spec k' k) as [->|Hne].
  - rewrite bool_decide_eq_true_2 by left. reflexivity.
  - cbn [map fst]. rewrite IH.
    destruct (bool_decide (k ∈ map fst d)) eqn:Hin.
    + apply bool_decide_eq_true in Hin.
      rewrite bool_decide_eq_true_2 by now right. reflexivity.
    + apply bool_decide_eq_false in Hin.
      rewrite bool_decide_eq_false_2; [reflexivity|].
      intros Hin'. apply elem_of_cons in Hin' as [Heq|Hin']; congruence.
Qed.

Lemma filter_filter_ext {A} (p q r : A -> bool) (l : list A) :
  (forall x, q x && p x = r x) ->
  List.filter p (List.filter q l) = List.filter r l.
Proof.
  intros Hr. induction l as [|x l IH]; [reflexivity|].
  cbn [List.filter]. rewrite <- (Hr x).
  destruct (q x); cbn [List.filter andb]; [|exact IH].
  destruct (p x); now rewrite IH.
Qed.

(** The keys of a dict under construction: those it has, then the new
    ones in the order of their first occurrence. *)
Lemma dict_fold_keys {V} (pairs acc : list (string * V)) :
  map fst (fold_left (fun d kv => Py.dict_set d (fst kv) (snd kv)) pairs acc)
  = map fst acc ++
    List.filter (fun k => bool_decide (k ∉ map fst acc))
      (first_occurrences (map fst pairs)).
Proof.
  revert acc. induction pairs as [|[k v] pairs IH]; intros acc.
  - simpl. now rewrite app_nil_r.
  - cbn [fold_left fst snd map first_occurrences List.filter].
    rewrite IH, dict_set_keys.
    destruct (bool_decide (k ∈ map fst acc)) eqn:Hin.
    + apply bool_decide_eq_true in Hin.
      rewrite (bool_decide_eq_false_2 (k ∉ map fst acc)) by tauto.
      f_equal. symmetry. apply filter_filter_ext.
      intros x. destruct (String.eqb_spec x k) as [->|Hne]; cbn [negb andb].
      * symmetry. apply bool_decide_eq_false_2. tauto.
      * reflexivity.
    + apply bool_decide_eq_false in Hin.
      rewrite (bool_decide_eq_true_2 (k ∉ map fst acc)) by exact Hin.
      rewrite <- app_assoc. cbn [app]. do 2 f_equal.
      symmetry. apply filter_filter_ext.
      intros x. destruct (String.eqb_spec x k) as [->|Hne]; cbn [negb andb].
      * symmetry. apply bool_decide_eq_false_2.
        intros Hout. apply Hout, elem_of_app. right. left.
      * apply bool_decide_ext. rewrite elem_of_app, list_elem_of_singleton.
        tauto.
Qed.

(** The keys of a dict are the names of the pairs, each once, in the order
    of their first occurrence. *)
Lemma dict_keys_first_occurrences {V} (pairs : list (string * V)) :
  map fst (Py.dict pairs) = first_occurrences (map fst pairs).
Proof.
  unfold Py.dict. rewrite dict_fold_keys. cbn [map app].
  induction (first_occurrences (map fst pairs)) as [|k ks IH];
    [reflexivity|].
  cbn [List.filter].
  rewrite bool_decide_eq_true_2 by apply not_elem_of_nil.
  now rewrite IH.
Qed.

Lemma field_lookup_None (fs : list (string * value)) (name : string) :
  name ∉ map fst fs -> field_lookup fs name = None.
Proof.
  induction fs as [|[k v] fs IH]; intros Hout; [reflexivity|].
  cbn [field_lookup]. cbn [map fst] in Hout.
  destruct (String.eqb_spec k name) as [->|Hne].
  - exfalso. apply Hout. left.
  - apply IH. intros Hin. apply Hout. now right.
Qed.

Lemma field_lookup_Some (fs : list (string * value)) (name : string) :
  name ∈ map fst fs -> exists v, field_lookup fs name = Some v.
Proof.
  induction fs as [|[k v] fs IH]; intros Hin; [inversion Hin|].
  cbn [field_lookup]. cbn [map fst] in Hin.
  destruct (String.eqb_spec k name) as [->|Hne]; [eauto|].
  apply IH. apply elem_of_cons in Hin as [Heq|Hin]; [congruence|exact Hin].
Qed.

(** Two lists of fields with the same names in the same order, distinct,
    and the same value under every name are the same list. *)
Lemma fields_eq_by_lookup (fs gs : list (string * value)) :
  NoDup (map fst fs) ->
  map fst fs = map fst gs ->
  (forall name, field_lookup fs name = field_lookup gs name) ->
  fs = gs.
Proof.
  revert gs. induction fs as [|[k v] fs IH]; intros [|[k' v'] gs] Hnd Hkeys Hlook;
    try discriminate; [reflexivity|].
  cbn [map fst] in Hkeys, Hnd. injection Hkeys as <- Hkeys.
  apply NoDup_cons in Hnd as [Hk Hnd].
  pose proof (Hlook k) as Hhead. cbn [field_lookup] in Hhead.
  rewrite String.eqb_refl in Hhead. injection Hhead as <-.
  f_equal. apply IH; [exact Hnd|exact Hkeys|].
  intros name. destruct (String.eqb_spec k name) as [<-|Hne].
  - rewrite !field_lookup_None; [reflexivity| |exact Hk].
    now rewrite <- Hkeys.
  - specialize (Hlook name). cbn [field_lookup] in Hlook.
    destruct (String.eqb_spec k name); [contradiction|exact Hlook].
Qed.

Lemma field_lookup_tabulate (g : string -> value) (names : list string)
  (name : string) :
  field_lookup (map (fun k => (k, g k)) names) name
  = if bool_decide (name ∈ names) then Some (g name) else None.
Proof.
  induction names as [|k names IH]; [reflexivity|].
  cbn [map field_lookup].
  destruct (String.eqb_spec k name) as [->|Hne].
  - rewrite bool_decide_eq_true_2 by left. reflexivity.
  - rewrite IH. apply (f_equal (fun b : bool => if b then _ else _)).
    apply bool_decide_ext. rewrite elem_of_cons. intuition congruence.
Qed.

(** [dict(pairs)] holds every name once, at the place of its first
    occurrence among the pairs and with the value of its last one. *)
Lemma dict_shown_fields (fields : list (string * value)) :
  Py.dict fields = shown_fields fields.
Proof.
  assert (Hkeys : map fst (shown_fields fields)
                  = first_occurrences (map fst fields)).
  { unfold shown_fields. rewrite map_map. cbn [fst]. apply map_id. }
  apply fields_eq_by_lookup.
  - apply dict_keys_NoDup.
  - now rewrite dict_keys_first_occurrences, Hkeys.
  - intros name.
    assert (Hdict : field_lookup (Py.dict fields) name
                    = field_lookup (reverse fields) name).
    { unfold Py.dict. rewrite field_lookup_dict_fold.
      now destruct (field_lookup (reverse fields) name). }
    unfold shown_fields. rewrite field_lookup_tabulate.
    rewrite <- dict_keys_first_occurrences.
    destruct (bool_decide (name ∈ map fst (Py.dict fields))) eqn:Hin.
    + apply bool_decide_eq_true in Hin.
      destruct (field_lookup_Some _ _ Hin) as [v Hv].
      rewrite Hv. rewrite Hv in Hdict. now rewrite <- Hdict.
    + apply bool_decide_eq_false in Hin.
      now rewrite (field_lookup_None _ _ Hin).
Qed.

(** ** More on the dump serializer *)

Lemma count_newlines_app (a b : string) :
  count_newlines (a +:+ b) = (count_newlines a + count_newlines b)%nat.
Proof. induction a as [|c a IH]; simpl; [reflexivity|]. rewrite IH. lia. Qed.

Lemma count_newlines_repeat (s : string) (n : nat) :
  count_newlines s = O -> count_newlines (Py.repeat_nat s n) = O.
Proof.
  intros Hs. induction n as [|n IH]; simpl; [reflexivity|].
  rewrite count_newlines_app. lia.
Qed.

Lemma count_newlines_join (parts : list string) :
  count_newlines (Py.join Py.nl parts)
  = (list_sum (map count_newlines parts) + Nat.pred (length parts))%nat.
Proof.
  induction parts as [|p rest IH]; [reflexivity|].
  destruct rest as [|q rest].
  - simpl. lia.
  - change (Py.join Py.nl (p :: q :: rest))
      with (p +:+ Py.nl +:+ Py.join Py.nl (q :: rest)).
    rewrite !count_newlines_app, IH. simpl. lia.
Qed.

Lemma string_append_assoc (a b c : string) :
  (a +:+ b) +:+ c = a +:+ b +:+ c.
Proof.
  induction a as [|x a IH]; [reflexivity|].
  change (String x ((a +:+ b) +:+ c) = String x (a +:+ b +:+ c)).
  now f_equal.
Qed.

Lemma join_frame (sep first last : string) (parts : list string) :
  parts <> [] ->
  Py.join sep (first :: parts ++ [last])
  = first +:+ sep +:+ Py.join sep parts +:+ sep +:+ last.
Proof.
  intros Hne.
  assert (Hinner : Py.join sep (parts ++ [last])
                   = Py.join sep parts +:+ sep +:+ last).
  { induction parts as [|p rest IH]; [contradiction|].
    destruct rest as [|q rest].
    - reflexivity.
    - change (Py.join sep ((p :: q :: rest) ++ [last]))
        with (p +:+ sep +:+ Py.join sep ((q :: rest) ++ [last])).
      rewrite IH by discriminate.
      change (Py.join sep (p :: q :: rest))
        with (p +:+ sep +:+ Py.join sep (q :: rest)).
      now rewrite !string_append_assoc. }
  destruct parts as [|p rest]; [contradiction|].
  change (Py.join sep (first :: (p :: rest) ++ [last]))
    with (first +:+ sep +:+ Py.join sep ((p :: rest) ++ [last])).
  now rewrite Hinner.
Qed.

Section DumpMore.

Variable repr : value -> string.

(** X1: a node that yields a field name more than once is dumped with
    each name once, at the place of its first occurrence among the pairs
    and with the value of its last occurrence: at every depth and for
    every indent, the fields [_dump_impl] renders, in the compact and in
    the multi-line form, are [shown_fields] of the pairs, in that order;
    so is it for [dump]. *)
Theorem dump_repeated_field_names (cls : string)
  (fields : list (string * value)) (indent_str : string) (depth : Z)
  (indent : option indent_arg) :
  _dump_impl repr (Node cls fields) indent_str depth
  = (if Py.truthy indent_str && negb (bool_decide (fields = []))
     then
       Py.join Py.nl
         ((cls +:+ "(") ::
          map (fun nv =>
                 Py.str_mul indent_str (depth + 1) +:+ fst nv +:+ "=" +:+
                 _dump_value_impl repr (snd nv) indent_str (depth + 1) +:+ ",")
              (shown_fields fields) ++
          [Py.str_mul indent_str depth +:+ ")"])
     else
       cls +:+ "(" +:+
       Py.join ", "
         (map (fun nv => fst nv +:+ "=" +:+ repr (snd nv))
              (shown_fields fields))
       +:+ ")") /\
  dump repr (Node cls fields) indent
  = (if Py.truthy (indent_text indent) && negb (bool_decide (fields = []))
     then
       Py.join Py.nl
         ((cls +:+ "(") ::
          map (fun nv =>
                 Py.str_mul (indent_text indent) 1 +:+ fst nv +:+ "=" +:+
                 _dump_value_impl repr (snd nv) (indent_text indent) 1 +:+ ",")
              (shown_fields fields) ++
          [Py.str_mul (indent_text indent) 0 +:+ ")"])
     else
       cls +:+ "(" +:+
       Py.join ", "
         (map (fun nv => fst nv +:+ "=" +:+ repr (snd nv))
              (shown_fields fields))
       +:+ ")").
Proof.
  assert (Hrun : forall ind d,
    _dump_impl repr (Node cls fields) ind d
    = (if Py.truthy ind && negb (bool_decide (fields = []))
       then
         Py.join Py.nl
           ((cls +:+ "(") ::
            map (fun nv =>
                   Py.str_mul ind (d + 1) +:+ fst nv +:+ "=" +:+
                   _dump_value_impl repr (snd nv) ind (d + 1) +:+ ",")
                (shown_fields fields) ++
            [Py.str_mul ind d +:+ ")"])
       else
         cls +:+ "(" +:+
         Py.join ", "
           (map (fun nv => fst nv +:+ "=" +:+ repr (snd nv))
                (shown_fields fields))
         +:+ ")")).
  { intros ind d. rewrite _dump_impl_unfold. cbv zeta.
    rewrite dict_length_pos.
    unfold multiline_form, compact_form. cbn [class_name iter_fields].
    now rewrite dict_shown_fields. }
  split; [apply Hrun|].
  rewrite dump_unfold. apply Hrun.
Qed.

(** What X1 shows of a node that repeats a name. *)
Lemma shown_fields_repeated :
  shown_fields [("a", VInt 1); ("b", VInt 2); ("a", VInt 3)]
  = [("a", VInt 3); ("b", VInt 2)].
Proof. reflexivity. Qed.

(** X2: in the multi-line form the dump of a node opens with [TypeName(] on a
    row of its own and closes with [)] on a row of its own, indented to the
    depth of the node. *)
Theorem dump_multiline_frame (n : node) (indent : string) (depth : Z) :
  Py.truthy indent = true ->
  iter_fields n <> [] ->
  exists rows,
    _dump_impl repr n indent depth
    = class_name n +:+ "(" +:+ Py.nl +:+ rows +:+ Py.nl +:+
      Py.str_mul indent depth +:+ ")".
Proof.
  intros Hindent Hfields.
  rewrite _dump_impl_unfold. cbv zeta.
  rewrite Hindent, dict_length_pos.
  rewrite bool_decide_eq_false_2 by exact Hfields. cbn [andb negb].
  unfold multiline_form.
  rewrite join_frame.
  - rewrite !string_append_assoc. eexists. reflexivity.
  - intros Hnil. apply map_eq_nil in Hnil.
    assert (Hpos : (0 <? Z.of_nat (length (Py.dict (iter_fields n)))) = true).
    { rewrite dict_length_pos. now rewrite bool_decide_eq_false_2. }
    rewrite Hnil in Hpos. discriminate.
Qed.

Lemma rows_sum (f : value -> string) (items : list value) :
  Forall (fun v => S (count_newlines (f v)) = rows_of_value v) items ->
  (list_sum (map (fun v => count_newlines (f v)) items) + length items)%nat
  = list_sum (map rows_of_value items).
Proof.
  induction 1 as [|v items Hv _ IH]; simpl; [reflexivity|]. lia.
Qed.

(** X3: one row per field and per item: for a tree without line feeds of its
    own and a non-empty indent without line feed, the multi-line dump of a
    value has exactly [rows_of_value] rows, one for every scalar, empty
    sequence and node without fields, and an opening and a closing row for
    every other node and sequence. *)
Theorem dump_rows (indent : string) :
  Py.truthy indent = true ->
  one_line indent = true ->
  (forall v depth,
      tidy_value repr v = true ->
      S (count_newlines (_dump_value_impl repr v indent depth))
      = rows_of_value v) /\
  (forall n depth,
      tidy_node repr n = true ->
      S (count_newlines (_dump_impl repr n indent depth)) = rows_of_node n).
Proof.
  intros Hindent Hline.
  apply Nat.eqb_eq in Hline.
  assert (Hpad : forall d, count_newlines (Py.str_mul indent d) = O).
  { intros d. now apply count_newlines_repeat. }
  apply value_node_mutind.
  - intros depth Ht. apply Nat.eqb_eq in Ht. simpl. now rewrite Ht.
  - intros b depth Ht. apply Nat.eqb_eq in Ht. simpl in *. now rewrite Ht.
  - intros z depth Ht. apply Nat.eqb_eq in Ht. simpl in *. now rewrite Ht.
  - intros s depth Ht. apply Nat.eqb_eq in Ht. simpl in *. now rewrite Ht.
  - intros [|x items] IH depth Ht.
    + apply Nat.eqb_eq in Ht. simpl in *. now rewrite Ht.
    + cbn [tidy_value] in Ht. cbn [_dump_value_impl rows_of_value].
      set (l := x :: items) in *.
      rewrite count_newlines_join. cbn [map list_sum fold_right length].
      rewrite map_app, list_sum_app, length_app, length_map, map_map.
      cbn [map list_sum fold_right length].
      rewrite !count_newlines_app, Hpad. cbn [count_newlines].
      rewrite <- (rows_sum (fun v => _dump_value_impl repr v indent (depth + 1))).
      * rewrite (map_ext
                   (fun v =>
                      count_newlines
                        (Py.str_mul indent (depth + 1) +:+
                         _dump_value_impl repr v indent (depth + 1) +:+ ","))
                   (fun v =>
                      count_newlines
                        (_dump_value_impl repr v indent (depth + 1)))).
        -- simpl. lia.
        -- intros v. rewrite !count_newlines_app, Hpad. simpl. lia.
      * apply Forall_forall. intros v Hv. rewrite Forall_forall in IH.
        apply (IH v Hv). apply (proj1 (forallb_forall _ _) Ht).
        now apply list_elem_of_In.
  - intros n IH depth Ht. exact (IH depth Ht).
  - intros cls fields IH depth Ht.
    cbn [tidy_node] in Ht.
    apply andb_prop in Ht as [Ht Hvalues].
    apply andb_prop in Ht as [Hcls Hnames].
    apply Nat.eqb_eq in Hcls. apply bool_decide_eq_true in Hnames.
    rewrite _dump_impl_unfold. cbv zeta. cbn [iter_fields].
    rewrite (dict_distinct _ Hnames), Hindent.
    destruct fields as [|f fields].
    + change (S (count_newlines (cls +:+ "(" +:+ "" +:+ ")")) = 1%nat).
      rewrite !count_newlines_app, Hcls. reflexivity.
    + set (l := f :: fields) in *.
      assert (Hlen : (0 <? Z.of_nat (length l)) = true) by reflexivity.
      rewrite Hlen. cbn [andb].
      unfold multiline_form. cbn [class_name iter_fields rows_of_node].
      rewrite (dict_distinct _ Hnames).
      rewrite count_newlines_join. cbn [map list_sum fold_right length].
      rewrite map_app, list_sum_app, length_app, length_map, map_map.
      cbn [map list_sum fold_right length].
      rewrite !count_newlines_app, Hpad, Hcls. cbn [count_newlines].
      assert (Hsum :
        (list_sum
           (map (fun nv =>
                   count_newlines
                     (Py.str_mul indent (depth + 1) +:+ fst nv +:+ "=" +:+
                      _dump_value_impl repr (snd nv) indent (depth + 1) +:+ ","))
              l) + length l)%nat
        = list_sum (map (fun nv => rows_of_value (snd nv)) l)).
      { clear Hlen Hnames. subst l.
        revert Hvalues IH. generalize (f :: fields). intros l Hvalues IH.
        induction IH as [|nv l Hnv _ IHl]; [reflexivity|].
        cbn [forallb] in Hvalues.
        apply andb_prop in Hvalues as [Hhead Htail].
        apply andb_prop in Hhead as [Hname Hvalue].
        apply Nat.eqb_eq in Hname.
        specialize (Hnv (depth + 1) Hvalue). specialize (IHl Htail).
        cbn [map list_sum fold_right length].
        rewrite !count_newlines_app, Hpad, Hname. cbn [count_newlines].
        change (Ascii.eqb "=" Py.newline) with false.
        change (Ascii.eqb "," Py.newline) with false.
        cbv iota. unfold list_sum in IHl. lia. }
      change (Ascii.eqb "(" Py.newline) with false.
      change (Ascii.eqb ")" Py.newline) with false.
      subst l. cbv iota. lia.
Qed.

End DumpMore.

Lemma dump_repeated_field_names_witness :
  dump Demo.repr Demo2.repeated (Some (IndentStr "--"))
  = "X(" +:+ Py.nl +:+ "--a=3," +:+ Py.nl +:+ "--b=2," +:+ Py.nl +:+ ")" /\
  dump Demo.repr Demo2.repeated None = "X(a=3, b=2)".
Proof.
  split.
  - exact (eq_trans
             (proj2 (dump_repeated_field_names Demo.repr "X"
                       [("a", VInt 1); ("b", VInt 2); ("a", VInt 3)]
                       "" 0 (Some (IndentStr "--"))))
             eq_refl).
  - exact (eq_trans
             (proj2 (dump_repeated_field_names Demo.repr "X"
                       [("a", VInt 1); ("b", VInt 2); ("a", VInt 3)]
                       "" 0 None))
             eq_refl).
Defined.

Lemma dump_multiline_frame_witness :
  exists rows,
    _dump_impl Demo.repr Demo.call "  " 0
    = "Call" +:+ "(" +:+ Py.nl +:+ rows +:+ Py.nl +:+
      Py.str_mul "  " 0 +:+ ")".
Proof.
  apply (dump_multiline_frame Demo.repr Demo.call "  " 0).
  - reflexivity.
  - discriminate.
Defined.

Lemma dump_rows_witness :
  count_newlines (dump Demo.repr Demo2.nested (Some (IndentInt 2))) = 11%nat.
Proof.
  apply eq_add_S.
  exact (proj2 (dump_rows Demo.repr "  " eq_refl eq_refl) Demo2.nested 0 eq_refl).
Defined.

(** ** Tab expansion and lines *)

Lemma has_tab_app (a b : string) :
  has_tab (a +:+ b) = has_tab a || has_tab b.
Proof.
  induction a as [|c a IH]; [reflexivity|].
  change (has_tab (String c (a +:+ b)) = has_tab (String c a) || has_tab b).
  cbn [has_tab]. rewrite IH. now rewrite orb_assoc.
Qed.

Lemma has_tab_spaces (n : nat) : has_tab (Py.repeat_nat " " n) = false.
Proof. induction n as [|n IH]; [reflexivity|exact IH]. Qed.

(** The expanded text has no tab, whatever the tab size. *)
Lemma expandtabs_from_no_tab (tabsize col : Z) (s : string) :
  has_tab (Py.expandtabs_from tabsize col s) = false.
Proof.
  revert col. induction s as [|c s IH]; intros col; [reflexivity|].
  cbn [Py.expandtabs_from].
  destruct (Ascii.eqb c Py.tab) eqn:Hc.
  - destruct (0 <? tabsize); [|apply IH].
    rewrite has_tab_app. unfold Py.str_mul. now rewrite has_tab_spaces, IH.
  - cbn [has_tab]. now rewrite Hc, IH.
Qed.

(** A text without tab is left as it is. *)
Lemma expandtabs_from_tab_free (tabsize col : Z) (s : string) :
  has_tab s = false -> Py.expandtabs_from tabsize col s = s.
Proof.
  revert col. induction s as [|c s IH]; intros col Hs; [reflexivity|].
  cbn [has_tab] in Hs. apply orb_false_elim in Hs as [Hc Hs].
  cbn [Py.expandtabs_from]. rewrite Hc. f_equal. now apply IH.
Qed.

Lemma split_app_one_line (a b : string) :
  count_newlines a = O ->
  Py.split Py.newline (a +:+ b)
  = match Py.split Py.newline b with
    | [] => [a]
    | first :: rest => (a +:+ first) :: rest
    end.
Proof.
  induction a as [|c a IH]; intros Ha.
  - change ("" +:+ b) with b.
    pose proof (split_not_nil Py.newline b).
    now destruct (Py.split Py.newline b).
  - cbn [count_newlines] in Ha.
    destruct (Ascii.eqb c Py.newline) eqn:Hc; [discriminate|].
    change (String c a +:+ b) with (String c (a +:+ b)).
    cbn [Py.split]. rewrite Hc, IH by exact Ha.
    pose proof (split_not_nil Py.newline b).
    now destruct (Py.split Py.newline b).
Qed.

(** Tab expansion works line by line: the lines of the expanded text are
    the expanded lines of the text, the first one from the column the
    expansion starts at. *)
Lemma split_expandtabs_from (tabsize col : Z) (s : string) :
  Py.split Py.newline (Py.expandtabs_from tabsize col s)
  = match Py.split Py.newline s with
    | [] => []
    | first :: rest =>
        Py.expandtabs_from tabsize col first
          :: map (Py.expandtabs tabsize) rest
    end.
Proof.
  revert col. induction s as [|c s IH]; intros col; [reflexivity|].
  pose proof (split_not_nil Py.newline s) as Hne.
  cbn [Py.expandtabs_from Py.split].
  destruct (Ascii.eqb c Py.tab) eqn:Htab.
  - assert (Hnl : Ascii.eqb c Py.newline = false).
    { apply Ascii.eqb_eq in Htab. now subst c. }
    rewrite Hnl.
    destruct (0 <? tabsize) eqn:Hsize.
    + rewrite split_app_one_line
        by (apply count_newlines_repeat; reflexivity).
      rewrite IH.
      destruct (Py.split Py.newline s) as [|first rest]; [contradiction|].
      cbn [Py.expandtabs_from]. now rewrite Htab, Hsize.
    + rewrite IH.
      destruct (Py.split Py.newline s) as [|first rest]; [contradiction|].
      cbn [Py.expandtabs_from]. now rewrite Htab, Hsize.
  - cbn [Py.split].
    destruct (Ascii.eqb c Py.newline) eqn:Hnl.
    + cbn [orb]. rewrite IH.
      destruct (Py.split Py.newline s) as [|first rest]; [contradiction|].
      reflexivity.
    + rewrite IH.
      destruct (Py.split Py.newline s) as [|first rest]; [contradiction|].
      cbn [Py.expandtabs_from]. now rewrite Htab, Hnl.
Qed.

(** X4: with [expand_tabs] on, the text handed on has no tab, so the second
    expansion in the debug block changes nothing: [source_expanded] is
    [source], for every tab width. *)
Theorem prepared_source_tab_free (source : string) (o : options) :
  expand_tabs o = true ->
  has_tab (prepared_source source o) = false /\
  forall tabsize,
    Py.expandtabs tabsize (prepared_source source o) = prepared_source source o.
Proof.
  intros Hexpand. unfold prepared_source. rewrite Hexpand.
  assert (Hfree : has_tab (Py.expandtabs (tab_width o) source) = false)
    by apply expandtabs_from_no_tab.
  split; [exact Hfree|].
  intros tabsize. now apply expandtabs_from_tab_free.
Qed.

Lemma prepared_source_tab_free_witness :
  has_tab (prepared_source (String Py.tab "x") default_options) = false /\
  Py.expandtabs 8 (prepared_source (String Py.tab "x") default_options)
  = "    x".
Proof.
  destruct (prepared_source_tab_free (String Py.tab "x") default_options
              eq_refl) as [Hfree Hsame].
  split; [exact Hfree|].
  exact (eq_trans (Hsame 8) eq_refl).
Defined.

(** X5: tab expansion never moves text across lines: with [expand_tabs] on, the
    lines of the text handed on ([source_lines] of the debug block) are the
    lines of the text as given, each expanded on its own; there are as many
    of them. *)
Theorem prepared_source_by_line (source : string) (o : options) :
  expand_tabs o = true ->
  Py.split Py.newline (prepared_source source o)
  = map (Py.expandtabs (tab_width o)) (Py.split Py.newline source) /\
  length (Py.split Py.newline (prepared_source source o))
  = length (Py.split Py.newline source).
Proof.
  intros Hexpand. unfold prepared_source. rewrite Hexpand.
  assert (Hlines :
    Py.split Py.newline (Py.expandtabs (tab_width o) source)
    = map (Py.expandtabs (tab_width o)) (Py.split Py.newline source)).
  { unfold Py.expandtabs at 1. rewrite split_expandtabs_from.
    pose proof (split_not_nil Py.newline source).
    now destruct (Py.split Py.newline source). }
  split; [exact Hlines|]. now rewrite Hlines, length_map.
Qed.

Lemma prepared_source_by_line_witness :
  Py.split Py.newline
    (prepared_source ("a" +:+ String Py.tab ("b" +:+ Py.nl +:+ String Py.tab "c"))
       default_options)
  = ["a   b"; "    c"].
Proof.
  exact (eq_trans
           (proj1 (prepared_source_by_line
                     ("a" +:+ String Py.tab ("b" +:+ Py.nl +:+ String Py.tab "c"))
                     default_options eq_refl))
           eq_refl).
Defined.

(** ** More on [parse_string] *)

Section ParserMore.

Context {collaborators : Collaborators}.

Lemma prepared_source_with_debug (source : string) (b : bool) (o : options) :
  prepared_source source (with_debug b o) = prepared_source source o.
Proof. reflexivity. Qed.

(** The scan returns the first line numbered 1 and the width of its
    number with the colon. *)
Lemma find_source_start_first (lines : list string) (j : nat) (line : string) :
  lines !! j = Some line ->
  numbered_one line = true ->
  (forall i other, (i < j)%nat -> lines !! i = Some other ->
                   numbered_one other = false) ->
  forall count i, (i <= j < i + count)%nat ->
  find_source_start lines i count
  = Return (Z.of_nat j, Py.len (Py.before_first ":" line) + 1).
Proof.
  intros Hj Hline Hfirst count.
  induction count as [|count IH]; intros i Hi; [lia|].
  cbn [find_source_start].
  destruct (decide (i = j)) as [->|Hne].
  - rewrite Hj. unfold numbered_one in Hline. now rewrite Hline.
  - assert (Hlt : (i < j)%nat) by lia.
    destruct (lines !! i) as [other|] eqn:Hother.
    + specialize (Hfirst i other Hlt Hother). unfold numbered_one in Hfirst.
      rewrite Hfirst. apply IH. lia.
    + apply lookup_ge_None in Hother. apply lookup_lt_Some in Hj. lia.
Qed.

(** Without a line numbered 1 the scan runs to the end of its range, and
    fails on the first index past the lines. *)
Lemma find_source_start_none (lines : list string) :
  forallb (fun line => negb (numbered_one line)) lines = true ->
  forall count i, (i <= length lines)%nat ->
  find_source_start lines i count
  = if decide (i + count <= length lines)%nat
    then Return (0, 0) else Raise IndexError.
Proof.
  intros Hnone count.
  induction count as [|count IH]; intros i Hi.
  - cbn [find_source_start]. now rewrite decide_True by lia.
  - cbn [find_source_start].
    destruct (lines !! i) as [line|] eqn:Hline.
    + assert (Hno : numbered_one line = false).
      { apply negb_true_iff.
        apply (proj1 (forallb_forall _ _) Hnone).
        apply list_elem_of_In, list_elem_of_lookup. eauto. }
      unfold numbered_one in Hno. rewrite Hno.
      apply lookup_lt_Some in Hline.
      rewrite IH by lia.
      destruct (decide (S i + count <= length lines)%nat);
        destruct (decide (i + S count <= length lines)%nat);
        (reflexivity || lia).
    + apply lookup_ge_None in Hline. now rewrite decide_False by lia.
Qed.

(** X6: the debug block finds the first annotated line whose text, leading
    blanks removed, starts with [1:]; its index becomes the line offset and
    the width of its number with the colon the column offset; the lines of
    the source and of the annotated text are kept with them. *)
Theorem debug_prepare_first_numbered_line (source : string) (tab_width : Z)
  (j : nat) (line : string) :
  Py.split Py.newline (with_line_numbers (Py.expandtabs tab_width source)) !! j
  = Some line ->
  numbered_one line = true ->
  (forall i other,
      (i < j)%nat ->
      Py.split Py.newline
        (with_line_numbers (Py.expandtabs tab_width source)) !! i = Some other ->
      numbered_one other = false) ->
  debug_prepare source tab_width
  = Return
      (DebugInfo
         (Py.split Py.newline source)
         (Py.split Py.newline
            (with_line_numbers (Py.expandtabs tab_width source)))
         (Z.of_nat j)
         (Py.len (Py.before_first ":" line) + 1)).
Proof.
  intros Hj Hline Hfirst. unfold debug_prepare.
  rewrite (find_source_start_first _ j line Hj Hline Hfirst).
  - reflexivity.
  - split; [lia|]. simpl.
    apply (split_lookup_lt _ _ _ _ Hj).
    intros ->. discriminate.
Qed.

(** X7: without a line numbered 1 in an annotated text that is longer than the
    number of its lines, the debug block raises [IndexError]: its loop runs
    over the length of the text. [parse_string] then raises it before the
    grammar is asked, with nothing printed and the ceiling untouched. *)
Theorem parse_string_debug_unnumbered (source : string) (o : options)
  (w : world) :
  debug o = true ->
  forallb (fun line => negb (numbered_one line))
    (Py.split Py.newline
       (with_line_numbers
          (Py.expandtabs (tab_width o) (prepared_source source o)))) = true ->
  (length (Py.split Py.newline
             (with_line_numbers
                (Py.expandtabs (tab_width o) (prepared_source source o))))
   < String.length
       (with_line_numbers
          (Py.expandtabs (tab_width o) (prepared_source source o))))%nat ->
  debug_prepare (prepared_source source o) (tab_width o) = Raise IndexError /\
  parse_string source o w = (Raise IndexError, w).
Proof.
  intros Hdebug Hnone Hlong.
  assert (Hprep :
    debug_prepare (prepared_source source o) (tab_width o) = Raise IndexError).
  { unfold debug_prepare.
    rewrite (find_source_start_none _ Hnone) by lia.
    rewrite decide_False by (simpl; lia). reflexivity. }
  split; [exact Hprep|].
  unfold parse_string. rewrite Hdebug.
  unfold bind at 1. unfold bind at 1. unfold lift. now rewrite Hprep.
Qed.

(** The handler with its output: the failing line has a row among the
    annotated lines and is a line of the source. *)
Lemma on_parse_exception_reraises (d : debug_info) (tab_width : Z)
  (err : parse_failure) (w : world) :
  (0 <= caret_row d err
     < Z.of_nat (length (source_lines_formatted_for_debug d)) ->
   1 <= lineno err <= Z.of_nat (length (source_lines d))) ->
  exists printed,
    on_parse_exception (Some d) tab_width err w
    = (Raise (ParseException err), World (ceiling w) (stdout w ++ printed)).
Proof.
  intros Hline.
  unfold on_parse_exception, bind, raise. cbn [print ceiling stdout].
  destruct (decide (0 <= caret_row d err
                    < Z.of_nat (length (source_lines_formatted_for_debug d))))
    as [Hin|Hout].
  - destruct (Hline Hin) as [Hlo Hhi].
    assert (Hsrc : exists source_line,
               Py.index (source_lines d) (lineno err - 1) = Some source_line).
    { unfold Py.index.
      replace (lineno err - 1 <? 0) with false by (symmetry; apply Z.ltb_ge; lia).
      apply lookup_lt_is_Some. lia. }
    destruct Hsrc as [source_line Hsrc].
    rewrite (print_annotated_caret d err tab_width source_line)
      by (try exact Hsrc; lia).
    cbn [ceiling stdout]. eexists. now rewrite <- !app_assoc.
  - rewrite print_annotated_no_caret.
    + cbn [ceiling stdout]. eexists. now rewrite <- !app_assoc.
    + intros k Hk Heq. apply Hout. lia.
Qed.

(** The run of [parse_string] when the grammar raises something else than
    a syntax failure. *)
Lemma parse_string_grammar_crashes (source : string) (o : options) (w : world)
  (dbg : option debug_info) (e : exn) :
  debug_state source o dbg ->
  0 < recursion_limit o ->
  script_parse (recursion_limit o)
    (comment_transform (prepared_source source o)) (parse_all o)
  = Raise e ->
  is_ParseException e = false ->
  parse_string source o w = (Raise e, w).
Proof.
  intros Hdbg Hlimit Hparse Hother. unfold parse_string.
  assert (Hpre :
    (if debug o
     then bind (lift (debug_prepare (prepared_source source o) (tab_width o)))
            (fun d => ret (Some d))
     else ret None) w = (Return dbg, w)).
  { destruct dbg as [d|]; simpl in Hdbg.
    - destruct Hdbg as [-> ->]. reflexivity.
    - rewrite Hdbg. reflexivity. }
  unfold bind at 1. rewrite Hpre.
  unfold bind at 1, try_except_ParseException, recursion_limit_context.
  replace (recursion_limit o <? 1) with false by (symmetry; apply Z.ltb_ge; lia).
  cbn [ceiling stdout]. rewrite Hparse, world_eta.
  destruct e; try discriminate; reflexivity.
Qed.

(** X8: only a syntax failure with [debug] on is reported: any exception of the
    grammar with [debug] off, and any exception other than a syntax
    failure with [debug] on, leaves [parse_string] as it was raised, with
    nothing printed and the ceiling restored. *)
Theorem parse_string_propagates_silently (source : string) (o : options)
  (w : world) (e : exn) :
  (debug o = true ->
   numbered_from_one
     (with_line_numbers
        (Py.expandtabs (tab_width o) (prepared_source source o))) = true) ->
  0 < recursion_limit o ->
  script_parse (recursion_limit o)
    (comment_transform (prepared_source source o)) (parse_all o)
  = Raise e ->
  debug o = false \/ is_ParseException e = false ->
  parse_string source o w = (Raise e, w).
Proof.
  intros Hnum Hlimit Hparse Hquiet.
  destruct (debug_state_exists source o Hnum) as [dbg Hdbg].
  destruct (is_ParseException e) eqn:Hkind.
  - destruct Hquiet as [Hoff|Hno]; [|discriminate].
    destruct e as [err| | | |]; try discriminate.
    destruct dbg as [d|]; simpl in Hdbg; [destruct Hdbg; congruence|].
    now rewrite (parse_string_grammar_fails source o w None err Hdbg Hlimit
                   Hparse).
  - exact (parse_string_grammar_crashes source o w dbg e Hdbg Hlimit Hparse
             Hkind).
Qed.

(** With [debug] off, [parse_string] leaves the world as it found it on
    every path. *)
Lemma parse_string_quiet (source : string) (o : options)
  (w : world) :
  debug o = false -> snd (parse_string source o w) = w.
Proof.
  intros Hdebug. unfold parse_string. rewrite Hdebug.
  unfold bind at 1. unfold ret at 1.
  unfold bind at 1, try_except_ParseException, recursion_limit_context.
  destruct (recursion_limit o <? 1); [reflexivity|].
  cbn [ceiling stdout].
  destruct (script_parse _ _ _) as [results|[err| | | |]];
    cbn [snd]; now rewrite world_eta.
Qed.

(** X9: the diagnostic is observational: with the debug block completed and the
    failing line of any syntax failure a line of the source when it has an
    annotated row, [parse_string] returns or raises with [debug] on exactly
    what it returns or raises with [debug] off; the ceiling is the same,
    only the output differs. *)
Theorem parse_string_debug_is_observational (source : string) (o : options)
  (w : world) (d : debug_info) :
  debug_prepare (prepared_source source o) (tab_width o) = Return d ->
  (forall err,
      script_parse (recursion_limit o)
        (comment_transform (prepared_source source o)) (parse_all o)
      = Raise (ParseException err) ->
      0 <= caret_row d err
        < Z.of_nat (length (source_lines_formatted_for_debug d)) ->
      1 <= lineno err <= Z.of_nat (length (source_lines d))) ->
  fst (parse_string source (with_debug true o) w)
  = fst (parse_string source (with_debug false o) w) /\
  ceiling (snd (parse_string source (with_debug true o) w))
  = ceiling (snd (parse_string source (with_debug false o) w)).
Proof.
  intros Hd Hline.
  destruct (Z.ltb_spec (recursion_limit o) 1) as [Hlow|Hlimit].
  - (* the ceiling is refused either way *)
    unfold parse_string. cbn [debug with_debug].
    rewrite !prepared_source_with_debug. cbn [tab_width with_debug].
    unfold bind at 1. unfold bind at 1. unfold lift. rewrite Hd.
    unfold ret at 1. unfold bind at 1. unfold bind at 2. unfold ret at 2.
    unfold bind, try_except_ParseException, recursion_limit_context.
    cbn [recursion_limit with_debug].
    replace (recursion_limit o <? 1) with true by (symmetry; apply Z.ltb_lt; lia).
    split; reflexivity.
  - assert (Hon : debug_state source (with_debug true o) (Some d)).
    { split; [reflexivity|exact Hd]. }
    assert (Hoff : debug_state source (with_debug false o) None) by reflexivity.
    assert (Hpos : 0 < recursion_limit o) by lia.
    destruct (script_parse (recursion_limit o)
                (comment_transform (prepared_source source o)) (parse_all o))
      as [results|e] eqn:Hparse.
    + rewrite (parse_string_grammar_returns source (with_debug true o) w
                 (Some d) results Hon Hpos Hparse).
      rewrite (parse_string_grammar_returns source (with_debug false o) w
                 None results Hoff Hpos Hparse).
      split; reflexivity.
    + destruct e as [err|msg| | |name];
        [|rewrite (parse_string_grammar_crashes source (with_debug true o) w
                     (Some d) _ Hon Hpos Hparse eq_refl),
                  (parse_string_grammar_crashes source (with_debug false o) w
                     None _ Hoff Hpos Hparse eq_refl);
          split; reflexivity ..].
      rewrite (parse_string_grammar_fails source (with_debug true o) w
                 (Some d) err Hon Hpos Hparse).
      rewrite (parse_string_grammar_fails source (with_debug false o) w
                 None err Hoff Hpos Hparse).
      destruct (on_parse_exception_reraises d (tab_width o) err w
                  (Hline err eq_refl)) as [printed Hrun].
      cbn [tab_width with_debug]. rewrite Hrun.
      split; reflexivity.
Qed.

Lemma print_annotated_index_error_run (d : debug_info) (err : parse_failure)
  (tab_width : Z) (lines : list string) (i : Z) (w : world) :
  Py.index (source_lines d) (lineno err - 1) = None ->
  0 <= caret_row d err - i < Z.of_nat (length lines) ->
  print_annotated d err tab_width lines i w
  = (Raise IndexError,
     World (ceiling w)
       (stdout w ++ take (S (Z.to_nat (caret_row d err - i))) lines)).
Proof.
  intros Hline. revert i w.
  induction lines as [|line rest IH]; intros i w Hrow; [simpl in Hrow; lia|].
  cbn [print_annotated]. unfold bind at 1. cbn [print].
  destruct (Z.eq_dec (caret_row d err) i) as [Heq|Hne].
  - assert (Hhere : (lineno err =? i - actual_source_start_line_index d + 1)
                    = true).
    { apply Z.eqb_eq. unfold caret_row in Heq. lia. }
    rewrite Hhere, Hline. cbn [negb]. unfold bind, raise.
    replace (caret_row d err - i) with 0 by lia.
    cbn [Z.to_nat take]. now rewrite take_0.
  - assert (Hhere : (lineno err =? i - actual_source_start_line_index d + 1)
                    = false).
    { apply Z.eqb_neq. unfold caret_row in Hne. lia. }
    rewrite Hhere. cbn [negb]. unfold bind at 1, ret at 1.
    rewrite IH by (simpl in Hrow; lia).
    cbn [ceiling stdout].
    replace (Z.to_nat (caret_row d err - i))
      with (S (Z.to_nat (caret_row d err - (i + 1)))) by lia.
    cbn [take]. now rewrite <- app_assoc.
Qed.

(** X10: a syntax failure whose line has a row among the annotated lines but is
    not a line of the source is lost with [debug] on: the handler prints
    the annotated lines down to that row, then [source_lines[err.lineno -
    1]] raises [IndexError], which [parse_string] raises in place of the
    failure. *)
Theorem parse_string_debug_line_outside_source (source : string)
  (o : options) (w : world) (err : parse_failure) (d : debug_info) :
  debug o = true ->
  0 < recursion_limit o ->
  debug_prepare (prepared_source source o) (tab_width o) = Return d ->
  script_parse (recursion_limit o)
    (comment_transform (prepared_source source o)) (parse_all o)
  = Raise (ParseException err) ->
  0 <= caret_row d err
    < Z.of_nat (length (source_lines_formatted_for_debug d)) ->
  Py.index (source_lines d) (lineno err - 1) = None ->
  parse_string source o w
  = (Raise IndexError,
     World (ceiling w)
       (stdout w ++ "" :: "Error while parsing source:" ::
        take (S (Z.to_nat (caret_row d err)))
          (source_lines_formatted_for_debug d))).
Proof.
  intros Hdebug Hlimit Hd Hparse Hrow Hline.
  rewrite (parse_string_grammar_fails source o w (Some d) err
             (conj Hdebug Hd) Hlimit Hparse).
  unfold on_parse_exception, bind, raise. cbn [print ceiling stdout].
  rewrite (print_annotated_index_error_run d err (tab_width o))
    by (try exact Hline; lia).
  cbn [ceiling stdout]. rewrite Z.sub_0_r.
  now rewrite <- !app_assoc.
Qed.

Lemma getattr_setattr_other (n : node) (name other : string) (v : value) :
  name <> other -> getattr (setattr n name v) other = getattr n other.
Proof.
  intros Hne. destruct n as [cls fs]. unfold getattr.
  cbn [setattr iter_fields].
  now rewrite field_lookup_dict_set_other.
Qed.

(** X11: a directive with a captured version always wins: the node of the
    grammar is returned with its version replaced by the captured value,
    whatever version the grammar had given it, and with its class and
    every other field as the grammar produced them. *)
Theorem parse_string_directive_overrides (source : string) (o : options)
  (w : world) (first : node) (rest : list node) :
  (debug o = true ->
   numbered_from_one
     (with_line_numbers
        (Py.expandtabs (tab_width o) (prepared_source source o))) = true) ->
  0 < recursion_limit o ->
  script_parse (recursion_limit o)
    (comment_transform (prepared_source source o)) (parse_all o)
  = Return (first :: rest) ->
  is_not_None (version_of_source (prepared_source source o)) = true ->
  exists n,
    parse_string source o w = (Return n, w) /\
    class_name n = class_name first /\
    getattr n "version" = version_of_source (prepared_source source o) /\
    (forall name, name <> "version" -> getattr n name = getattr first name).
Proof.
  intros Hnum Hlimit Hparse Hversion.
  destruct (debug_state_exists source o Hnum) as [dbg Hdbg].
  eexists. split.
  { exact (parse_string_grammar_returns source o w dbg (first :: rest)
             Hdbg Hlimit Hparse). }
  unfold returned_node. rewrite Hversion.
  split; [now destruct first|].
  split; [apply getattr_setattr|].
  intros name Hname. apply getattr_setattr_other. congruence.
Qed.

(** [parse_string] keeps the ceiling (shared by the entry points). *)
Lemma keeps_ceiling_parse_string (source : string) (o : options) :
  keeps_ceiling (parse_string source o).
Proof.
  unfold parse_string.
  apply keeps_ceiling_bind.
  - destruct (debug o); [|auto with ceiling].
    apply keeps_ceiling_bind; auto with ceiling.
  - intros dbg. apply keeps_ceiling_bind; [|auto with ceiling].
    apply keeps_ceiling_try; [auto with ceiling|].
    apply keeps_ceiling_handler.
Qed.

End ParserMore.

(** ** More on [parse_file] and [parse] *)

Section InputMore.

Context {collaborators : Collaborators} {file_system : FileSystem}.

(** What [parse_file] does with a path, by what opening and reading give. *)
Lemma parse_file_path_run (p : string) (encoding : option string)
  (o : options) (w : world) :
  parse_file (PPath p) encoding o w
  = match open_text p (default "utf-8" encoding) with
    | Raise e => (Raise e, w)
    | Return (Raise e) => (Raise e, w)
    | Return (Return text) => parse_string text o w
    end.
Proof.
  unfold parse_file. simpl. unfold bind, lift, ret.
  destruct encoding as [e|]; simpl;
    destruct (open_text p _) as [[text|e']|e']; reflexivity.
Qed.

(** X12: [parse] on a text that names an existing path reads that file: an error
    of opening it or of reading and decoding it is raised as it is, with
    the world untouched, and otherwise the text of the file is parsed with
    the same options. The text itself is never parsed. *)
Theorem parse_existing_path (p : string) (encoding : option string)
  (o : options) (w : world) :
  path_exists p = Return true ->
  parse (PStr p) encoding o w
  = match open_text p (default "utf-8" encoding) with
    | Raise e => (Raise e, w)
    | Return (Raise e) => (Raise e, w)
    | Return (Return text) => parse_string text o w
    end.
Proof.
  intros Hexists. unfold parse, bind at 1, lift. rewrite Hexists. cbn [negb].
  exact (parse_file_path_run p encoding o w).
Qed.

(** X13: [parse_file] raises the unsupported-type error for every argument that
    is not a [str], a [pathlib.Path], a raw binary stream or a text
    stream: [bytes], buffered binary streams, other path-likes and any
    other object; the message names the type of the object as rebound, so
    [BytesIO] for [bytes]. The world is untouched. *)
Theorem parse_file_unsupported_kinds (f : pyobj) (encoding : option string)
  (o : options) (w : world) :
  resolved_kind f = false ->
  parse_file f encoding o w
  = (Raise (TypeError ("Unsupported argument type: " +:+ type_repr (BytesIO f))),
     w).
Proof. destruct f; intros Hkind; try discriminate; reflexivity. Qed.

Lemma keeps_ceiling_parse_file (f : pyobj) (encoding : option string)
  (o : options) :
  keeps_ceiling (parse_file f encoding o).
Proof.
  unfold parse_file.
  apply keeps_ceiling_bind.
  - destruct (isinstance_Path _); [|auto with ceiling].
    unfold open. destruct (if isinstance_str f then Path f else f);
      try auto with ceiling.
    apply keeps_ceiling_bind; auto with ceiling.
  - intros f'. apply keeps_ceiling_bind.
    + destruct (isinstance_TextIOBase _); [|auto with ceiling].
      apply keeps_ceiling_bind; [|auto with ceiling].
      unfold read. destruct (if isinstance_RawIOBase _ then _ else _);
        auto with ceiling.
    + intros [text|]; [apply keeps_ceiling_parse_string|auto with ceiling].
Qed.

(** The recursion ceiling is restored by every entry point: after
    [parse_file] and after [parse], whatever they are given and whether
    they return or raise, the ceiling is what it was before the call. *)
Theorem parse_restores_ceiling (f : pyobj) (encoding : option string)
  (o : options) (w : world) :
  ceiling (snd (parse_file f encoding o w)) = ceiling w /\
  ceiling (snd (parse f encoding o w)) = ceiling w.
Proof.
  split.
  - apply keeps_ceiling_parse_file.
  - unfold parse. destruct f as [text| | | | | | |];
      try apply keeps_ceiling_parse_file.
    apply keeps_ceiling_bind; [auto with ceiling|].
    intros exists_. destruct (negb exists_);
      [apply keeps_ceiling_parse_string|apply keeps_ceiling_parse_file].
Qed.

Lemma parse_file_quiet (f : pyobj) (encoding : option string) (o : options)
  (w : world) :
  debug o = false -> snd (parse_file f encoding o w) = w.
Proof.
  intros Hdebug.
  destruct f as [p|p|t p|b|b|t b|[text|e]|t];
    try reflexivity.
  - change (parse_file (PStr p) encoding o w)
      with (parse_file (PPath p) encoding o w).
    rewrite parse_file_path_run.
    destruct (open_text p _) as [[text|e]|e]; try reflexivity.
    now apply parse_string_quiet.
  - rewrite parse_file_path_run.
    destruct (open_text p _) as [[text|e]|e]; try reflexivity.
    now apply parse_string_quiet.
  - unfold parse_file, bind, read, lift, ret.
    cbn [isinstance_str isinstance_Path isinstance_bytes isinstance_RawIOBase
         isinstance_TextIOBase Path BytesIO TextIOWrapper].
    match goal with
    | |- context [decode ?enc b] => destruct (decode enc b) as [text|e]
    end; [|reflexivity].
    now apply parse_string_quiet.
  - rewrite parse_file_text_stream. now apply parse_string_quiet.
Qed.

(** X14: with [debug] off no entry point prints anything or leaves the ceiling
    changed: the world after [parse_string], [parse_file] and [parse] is the
    world before, on every path. *)
Theorem parse_debug_off_world (source : string) (f : pyobj)
  (encoding : option string) (o : options) (w : world) :
  debug o = false ->
  snd (parse_string source o w) = w /\
  snd (parse_file f encoding o w) = w /\
  snd (parse f encoding o w) = w.
Proof.
  intros Hdebug.
  split; [now apply parse_string_quiet|].
  split; [now apply parse_file_quiet|].
  unfold parse. destruct f as [text| | | | | | |];
    try now apply parse_file_quiet.
  unfold bind, lift.
  destruct (path_exists text) as [exists_|e]; [|reflexivity].
  destruct (negb exists_);
    [now apply parse_string_quiet|now apply parse_file_quiet].
Qed.

End InputMore.

(** ** The further statements at concrete inputs *)

Lemma debug_prepare_first_numbered_line_witness :
  debug_prepare Demo.failing_source 4 = Return Demo.failing_debug_info.
Proof.
  refine (eq_trans
            (debug_prepare_first_numbered_line Demo.failing_source 4 1 "1:?x|"
               eq_refl eq_refl _)
            eq_refl).
  intros i other Hi Hother.
  destruct i as [|i]; [|lia].
  vm_compute in Hother. injection Hother as <-. reflexivity.
Defined.

Lemma parse_string_debug_unnumbered_witness :
  parse_string (collaborators := Demo2.unnumbered) "ab" Demo.debug_options
    Demo.world0
  = (Raise IndexError, Demo.world0).
Proof.
  apply (proj2 (parse_string_debug_unnumbered (collaborators := Demo2.unnumbered)
                  "ab" Demo.debug_options Demo.world0
                  eq_refl eq_refl ltac:(vm_compute; lia))).
Defined.

Lemma parse_string_propagates_silently_witness :
  parse_string "x" (Options true true true 4 10) Demo.world0
  = (Raise (OtherError "RecursionError"), Demo.world0).
Proof.
  apply (parse_string_propagates_silently "x" (Options true true true 4 10)
           Demo.world0 (OtherError "RecursionError")).
  - intros _. reflexivity.
  - reflexivity.
  - reflexivity.
  - right. reflexivity.
Defined.

Lemma parse_string_debug_is_observational_witness :
  fst (parse_string Demo.failing_source
         (with_debug true Demo.debug_options) Demo.world0)
  = fst (parse_string Demo.failing_source
           (with_debug false Demo.debug_options) Demo.world0).
Proof.
  assert (Hd :
    debug_prepare (prepared_source Demo.failing_source Demo.debug_options)
      (tab_width Demo.debug_options)
    = Return Demo.failing_debug_info) by reflexivity.
  assert (Hline : forall err,
    script_parse (recursion_limit Demo.debug_options)
      (comment_transform
         (prepared_source Demo.failing_source Demo.debug_options))
      (parse_all Demo.debug_options)
    = Raise (ParseException err) ->
    0 <= caret_row Demo.failing_debug_info err
      < Z.of_nat (length (source_lines_formatted_for_debug
                            Demo.failing_debug_info)) ->
    1 <= lineno err <= Z.of_nat (length (source_lines Demo.failing_debug_info))).
  { intros err H _. vm_compute in H. injection H as <-.
    vm_compute. split; discriminate. }
  exact (proj1 (parse_string_debug_is_observational Demo.failing_source
                  Demo.debug_options Demo.world0 Demo.failing_debug_info
                  Hd Hline)).
Defined.

Lemma parse_string_debug_line_outside_source_witness :
  parse_string (collaborators := Demo2.line_two) "?x" Demo.debug_options
    Demo.world0
  = (Raise IndexError,
     World 1000
       [""; "Error while parsing source:"; "  1234567890"; "1:?x|"; ""]).
Proof.
  apply (parse_string_debug_line_outside_source
           (collaborators := Demo2.line_two) "?x" Demo.debug_options
           Demo.world0 (ParseFailure 2 1 "Expected statement")
           (DebugInfo ["?x"] ["  1234567890"; "1:?x|"; ""] 1 2)).
  - reflexivity.
  - reflexivity.
  - reflexivity.
  - reflexivity.
  - vm_compute. split; [discriminate|reflexivity].
  - reflexivity.
Defined.

Lemma parse_string_directive_overrides_witness :
  exists n,
    parse_string (collaborators := Demo2.versioned) "//@version=5"
      default_options Demo.world0 = (Return n, Demo.world0) /\
    class_name n = "Script" /\
    getattr n "version" = VStr "5" /\
    (forall name, name <> "version" ->
       getattr n name
       = getattr (Node "Script" [("title", VStr "t"); ("version", VInt 4);
                                 ("body", VList [VStr "//@version=5"])]) name).
Proof.
  apply (parse_string_directive_overrides (collaborators := Demo2.versioned)
           "//@version=5" default_options Demo.world0
           (Node "Script" [("title", VStr "t"); ("version", VInt 4);
                           ("body", VList [VStr "//@version=5"])]) []).
  - intros H. discriminate H.
  - reflexivity.
  - reflexivity.
  - reflexivity.
Defined.

Lemma parse_existing_path_witness :
  parse (PStr "script.pine") None default_options Demo.world0
  = parse_string "//@version=5" default_options Demo.world0.
Proof.
  exact (parse_existing_path "script.pine" None default_options Demo.world0
           eq_refl).
Defined.

Lemma parse_file_unsupported_kinds_witness :
  parse_file (PBufferedIO "_io.BufferedReader" []) None default_options
    Demo.world0
  = (Raise (TypeError
              "Unsupported argument type: <class '_io.BufferedReader'>"),
     Demo.world0).
Proof.
  exact (parse_file_unsupported_kinds (PBufferedIO "_io.BufferedReader" [])
           None default_options Demo.world0 eq_refl).
Defined.

Lemma parse_debug_off_world_witness :
  snd (parse_string "?x" default_options Demo.world0) = Demo.world0 /\
  snd (parse_file (PStr "script.pine") None default_options Demo.world0)
  = Demo.world0 /\
  snd (parse (PStr "script.pine") None default_options Demo.world0)
  = Demo.world0.
Proof.
  exact (parse_debug_off_world "?x" (PStr "script.pine") None default_options
           Demo.world0 eq_refl).
Defined.
